(** * ChatBot: the AI response pipeline of the Discord cog and the web server

    A shallow embedding of [src/config.py], [src/cogs/chat.py] and
    [src/web_server.py]: configuration loading, the per-user conversation
    stores, prompt assembly, provider dispatch with its exception handlers and
    the splitting of long answers into Discord-sized messages.

    Python values are modelled as follows.
    - [str] is a list of characters; a character is a code point below 256
      ([ascii]), and the character classes below are Python's restricted to
      that range.
    - [int] is [Z]; [len] returns a [Z].
    - a [dict] used as a map is a [gmap]; a [list] is a [list].
    - an exception is a value of [exn]; a [try] body returns [result]. *)

From Stdlib Require Import ZArith List Ascii String Bool Lia.
From stdpp Require Import base option list gmap strings.
Import ListNotations.

#[local] Open Scope Z_scope.

Abbreviation str := (list ascii).

(** ** Python primitives used by the sources *)
Module Py.

(** A string literal. *)
Definition lit (s : string) : str := list_ascii_of_string s.

Definition len {A} (l : list A) : Z := Z.of_nat (length l).

(** Truth value of a [str] or [list]: empty is false. *)
Definition truthy {A} (l : list A) : bool :=
  match l with [] => false | _ :: _ => true end.

Definition code (c : ascii) : N := N_of_ascii c.

(** [str.isspace] on one character, which is also the class [\s] of [re]
    for [str] patterns: 9-13, 28-32, 133 and 160. *)
Definition is_space (c : ascii) : bool :=
  let n := code c in
  ((9 <=? n) && (n <=? 13) || (28 <=? n) && (n <=? 32)
   || (n =? 133) || (n =? 160))%N.

(** The regex class [[.!?]]. *)
Definition is_terminator (c : ascii) : bool :=
  let n := code c in ((n =? 46) || (n =? 33) || (n =? 63))%N.

Fixpoint lstrip (s : str) : str :=
  match s with
  | [] => []
  | c :: s' => if is_space c then lstrip s' else s
  end.

Fixpoint rstrip (s : str) : str :=
  match s with
  | [] => []
  | c :: s' =>
      match rstrip s' with
      | [] => if is_space c then [] else [c]
      | r => c :: r
      end
  end.

(** [s.strip()] *)
Definition strip (s : str) : str := rstrip (lstrip s).

(** [str.lower] on one character: A-Z and the Latin-1 capitals 192-214 and
    216-222 move up by 32. *)
Definition lower_char (c : ascii) : ascii :=
  let n := code c in
  if ((65 <=? n) && (n <=? 90) || (192 <=? n) && (n <=? 214)
      || (216 <=? n) && (n <=? 222))%N
  then ascii_of_N (n + 32) else c.

Definition lower (s : str) : str := map lower_char s.

(** [sep.join(l)] *)
Fixpoint join (sep : str) (l : list str) : str :=
  match l with
  | [] => []
  | [x] => x
  | x :: l' => x ++ sep ++ join sep l'
  end.

(** [l[start:]]: a negative start counts from the end, and both are
    clamped to the list. *)
Definition slice_from {A} (start : Z) (l : list A) : list A :=
  let n := len l in
  let i := if start <? 0 then Z.max (n + start) 0 else Z.min start n in
  drop (Z.to_nat i) l.

(** [d.get(key, default)] and [os.getenv(name, default)]: the value when
    there is one. *)
Definition get_or {A} (value : option A) (default : A) : A :=
  match value with
  | Some v => v
  | None => default
  end.

(** [x or d] for an optional string: [None] and the empty string are
    false. *)
Definition or_else (x : option str) (d : str) : str :=
  match x with
  | Some (c :: s) => c :: s
  | _ => d
  end.

(** *** [re.split(r'(?<=[.!?])\s+', s)]

    The scanner remembers what is to its left: a terminator (so that a
    white-space character here starts a separator), the inside of a
    separator (which extends over every following white-space character), or
    anything else.  The result is never empty: its head is the piece being
    read. *)
Inductive scan := AfterOther | AfterTerminator | InSeparator.

Definition after (c : ascii) : scan :=
  if is_terminator c then AfterTerminator else AfterOther.

Definition push (c : ascii) (pieces : list str) : list str :=
  match pieces with
  | [] => [[c]]
  | p :: ps => (c :: p) :: ps
  end.

Fixpoint split_from (st : scan) (s : str) : list str :=
  match s with
  | [] => [[]]
  | c :: s' =>
      match st, is_space c with
      | AfterTerminator, true => [] :: split_from InSeparator s'
      | InSeparator, true => split_from InSeparator s'
      | _, _ => push c (split_from (after c) s')
      end
  end.

Definition split_sentences (s : str) : list str := split_from AfterOther s.

(** [s.split()]: the maximal runs of characters that are not white space. *)
Fixpoint words_from (word : str) (s : str) : list str :=
  match s with
  | [] => if truthy word then [rev word] else []
  | c :: s' =>
      if is_space c
      then (if truthy word then [rev word] else []) ++ words_from [] s'
      else words_from (c :: word) s'
  end.

Definition split (s : str) : list str := words_from [] s.

(** White-space normalisation, [" ".join(s.split())]. *)
Definition normalize (s : str) : str := join (lit " ") (split s).

End Py.

Import Py.

(** ** Exceptions and results *)

(** The exceptions the pipeline distinguishes.  [openai.RateLimitError] and
    [openai.APITimeoutError] are subclasses of [openai.APIError]; [APIError]
    below stands for the remaining ones.  [OtherException] is anything else a
    provider SDK raises. *)
Inductive exn :=
| RateLimitError
| APITimeoutError
| APIError
| ValueError (msg : str)
| RuntimeError (msg : str)
| AttributeError
| IndexError
| OtherException.

Inductive result (A : Type) :=
| Return (a : A)
| Raise (e : exn).
Arguments Return {A} a.
Arguments Raise {A} e.

#[global] Instance result_ret : MRet result := fun A a => Return a.

#[global] Instance result_bind : MBind result := fun A B k r =>
  match r with
  | Return a => k a
  | Raise e => Raise e
  end.

(** ** Messages *)

Inductive role := system | user | assistant | ai.

#[global] Instance role_eq_dec : EqDecision role.
Proof. solve_decision. Defined.

(** A prompt entry, [{"role": ..., "content": ...}]. *)
Record message := Message { role_of : role; content : str }.

#[global] Instance message_eq_dec : EqDecision message.
Proof. solve_decision. Defined.

(** ** [src/config.py] *)
Module Config.

(** The environment variables read by [Config.__init__]; [None] is an
    unset variable. *)
Record environ := {
  DISCORD_TOKEN : option str;
  AI_PROVIDER : option str;
  OPENAI_API_KEY : option str;
  OPENAI_MODEL : option str;
  GEMINI_API_KEY : option str;
  GEMINI_MODEL : option str
}.

Record t := {
  discord_token : option str;
  ai_provider : str;
  openai_api_key : option str;
  openai_model : str;
  gemini_api_key : option str;
  gemini_model : str
}.

(** [not x] for an optional string. *)
Definition unset (x : option str) : bool :=
  match x with
  | Some (_ :: _) => false
  | _ => true
  end.

Definition valid_openai_models : list str :=
  [lit "gpt-4o-mini"; lit "gpt-4o"; lit "gpt-4.1-mini"; lit "gpt-4.1";
   lit "gpt-4"; lit "gpt-4-turbo"; lit "gpt-3.5-turbo";
   lit "gpt-3.5-turbo-16k"].

Definition valid_gemini_models : list str :=
  [lit "gemini-2.5-flash"; lit "gemini-1.5-flash"; lit "gemini-1.5-pro";
   lit "gemini-1.0-pro"; lit "gemini-1.5-flash-8b"].

Definition with_provider (self : t) (p : str) : t :=
  {| discord_token := discord_token self; ai_provider := p;
     openai_api_key := openai_api_key self;
     openai_model := openai_model self;
     gemini_api_key := gemini_api_key self;
     gemini_model := gemini_model self |}.

Definition with_openai_model (self : t) (m : str) : t :=
  {| discord_token := discord_token self; ai_provider := ai_provider self;
     openai_api_key := openai_api_key self;
     openai_model := m;
     gemini_api_key := gemini_api_key self;
     gemini_model := gemini_model self |}.

Definition with_gemini_model (self : t) (m : str) : t :=
  {| discord_token := discord_token self; ai_provider := ai_provider self;
     openai_api_key := openai_api_key self;
     openai_model := openai_model self;
     gemini_api_key := gemini_api_key self;
     gemini_model := m |}.

Definition _validate_config (self : t) : result t :=
  if unset (discord_token self)
  then Raise (ValueError (lit "DISCORD_TOKEN is required"))
  else
    (* Normalize provider *)
    let self :=
      if decide (ai_provider self ∈ [lit "openai"; lit "gemini"])
      then self else with_provider self (lit "openai") in
    (* Provider-specific validation *)
    if decide (ai_provider self = lit "openai") then
      if unset (openai_api_key self)
      then Raise (ValueError
                    (lit "OPENAI_API_KEY is required for AI_PROVIDER=openai"))
      else
        Return (if decide (openai_model self ∈ valid_openai_models)
                then self else with_openai_model self (lit "gpt-4o-mini"))
    else if decide (ai_provider self = lit "gemini") then
      if unset (gemini_api_key self)
      then Raise (ValueError
                    (lit "GEMINI_API_KEY is required for AI_PROVIDER=gemini"))
      else
        Return (if decide (gemini_model self ∈ valid_gemini_models)
                then self
                else with_gemini_model self (lit "gemini-1.5-flash"))
    else Return self.

Definition __init__ (env : environ) : result t :=
  _validate_config
    {| discord_token := DISCORD_TOKEN env;
       ai_provider :=
         lower (strip (or_else (Some (get_or (AI_PROVIDER env) (lit "openai")))
                               (lit "openai")));
       openai_api_key := OPENAI_API_KEY env;
       openai_model := get_or (OPENAI_MODEL env) (lit "gpt-4o-mini");
       gemini_api_key := GEMINI_API_KEY env;
       gemini_model := get_or (GEMINI_MODEL env) (lit "gemini-1.5-flash") |}.

End Config.

(** ** The provider SDKs

    The two hosted services are outside the program: a call either returns or
    raises, and what it returns is whatever the service sent. *)
Module Provider.

(** [response.choices[i].message.content], which may be [None]. *)
Record completion := { choices : list (option str) }.

(** The result of [generate_content]: what reading [result.text] does (it
    is a property of the SDK: it returns a text or [None], or it raises), and
    the candidates, each given by what [cand.content.parts[0].text] yields
    ([None] when that access raises or finds no text). *)
Record generation := {
  text : result (option str);
  candidates : option (list (option str))
}.

(** [getattr(result, 'text', None)]: the default stands in for an
    [AttributeError] only; any other exception of the property goes up. *)
Definition getattr_text (g : generation) : result (option str) :=
  match text g with
  | Raise AttributeError => Return None
  | outcome => outcome
  end.

Record sdk := {
  (** [client.chat.completions.create(model=, messages=, ...)] *)
  chat_completions_create : str -> list message -> result completion;
  (** [GenerativeModel(model_name=, system_instruction=)
         .generate_content(prompt)] *)
  generate_content : str -> option str -> str -> result generation
}.

(** The chain [if config.ai_provider == 'openai': ... elif
    config.ai_provider == 'gemini': ... else: raise ValueError(...)] that
    both front ends run on every call. *)
Inductive branch := OpenAI | Gemini | Unsupported.

Definition dispatch (ai_provider : str) : branch :=
  if decide (ai_provider = lit "openai") then OpenAI
  else if decide (ai_provider = lit "gemini") then Gemini
  else Unsupported.

End Provider.

(** ** [src/cogs/chat.py] *)
Module Chat.
Import Provider.

Record ChatCog := {
  conversation_history : gmap Z (list message);
  max_history_length : Z;
  max_message_length : Z;
  max_embed_length : Z
}.

(** The state [ChatCog.__init__] sets up. *)
Definition __init__ : ChatCog :=
  {| conversation_history := ∅;
     max_history_length := 10;
     max_message_length := 2000;
     max_embed_length := 6000 |}.

Definition set_conversation_history
    (self : ChatCog) (h : gmap Z (list message)) : ChatCog :=
  {| conversation_history := h;
     max_history_length := max_history_length self;
     max_message_length := max_message_length self;
     max_embed_length := max_embed_length self |}.

Definition system_prompt : str :=
  lit "You are a helpful AI assistant in a Discord server. Be concise, friendly, and helpful. Keep responses under 2000 characters when possible.".

Definition _build_conversation_context
    (self : ChatCog) (user_id : Z) (current_message : str) : list message :=
  let messages := [Message system system_prompt] in
  (* Add conversation history if available *)
  let messages :=
    match conversation_history self !! user_id with
    | Some history => fold_left (fun messages msg => messages ++ [msg])
                                history messages
    | None => messages
    end in
  (* Add current message *)
  messages ++ [Message user current_message].

Definition _update_conversation_history
    (self : ChatCog) (user_id : Z) (user_message ai_response : str)
    : ChatCog :=
  let history :=
    match conversation_history self !! user_id with
    | Some history => history
    | None => []
    end in
  (* Add user message and AI response *)
  let history :=
    history ++ [Message user user_message; Message assistant ai_response] in
  (* Trim history if too long *)
  let history :=
    if len history >? max_history_length self * 2
    then slice_from (- max_history_length self * 2) history
    else history in
  set_conversation_history self
    (<[user_id := history]> (conversation_history self)).

(** The loop of the Gemini branch that flattens the prompt: the last system
    entry becomes the system instruction, user and assistant entries become
    labelled lines. *)
Definition flatten_step (acc : str * list str) (m : message)
    : str * list str :=
  let '(system_instructions, parts) := acc in
  match role_of m with
  | system => (content m, parts)
  | user => (system_instructions, parts ++ [lit "User: " ++ content m])
  | assistant =>
      (system_instructions, parts ++ [lit "Assistant: " ++ content m])
  | ai => acc
  end.

Definition newline : str := [ascii_of_N 10].

(** The inner function [_gen] of the Gemini branch. *)
Definition _gen (api : sdk) (cfg : Config.t)
    (system_instructions prompt : str) : result str :=
  result ← generate_content api (Config.gemini_model cfg)
             (if truthy system_instructions
              then Some system_instructions else None)
             prompt;
  text ← getattr_text result;
  let text := strip (or_else text []) in
  if truthy text then mret text
  else
    match candidates result with
    | Some (cand :: cands) =>
        let collected := omap id (cand :: cands) in
        mret (strip (join newline (filter (fun p => truthy p = true)
                                          collected)))
    | _ => mret []
    end.

(** The body of the [try] of [_get_ai_response]. *)
Definition try_get_ai_response (cfg : Config.t) (api : sdk)
    (self : ChatCog) (user_id : Z) (message : str)
    : result (str * ChatCog) :=
  (* Build conversation context *)
  let messages := _build_conversation_context self user_id message in
  (* Call provider-specific API *)
  ai_response ←
    match dispatch (Config.ai_provider cfg) with
    | OpenAI =>
        response ← chat_completions_create api (Config.openai_model cfg)
                     messages;
        match choices response with
        | [] => Raise IndexError
        | None :: _ => Raise AttributeError
        | Some content :: _ => mret (strip content)
        end
    | Gemini =>
        let '(system_instructions, parts) :=
          fold_left flatten_step messages ([], []) in
        let prompt := join newline parts in
        ai_response ← _gen api cfg system_instructions prompt;
        if truthy ai_response then mret ai_response
        else Raise (RuntimeError (lit "Empty response from Gemini"))
    | Unsupported =>
        Raise (ValueError
                 (lit "Unsupported AI provider: " ++ Config.ai_provider cfg))
    end;
  (* Update conversation history *)
  let self := _update_conversation_history self user_id message ai_response in
  mret (ai_response, self).

(** The [except] clauses of [_get_ai_response], in their order. *)
Definition except (e : exn) : str :=
  match e with
  | RateLimitError =>
      lit "I'm experiencing high traffic right now. Please try again in a moment."
  | APITimeoutError =>
      lit "The AI service is taking longer than expected. Please try again."
  | APIError =>
      lit "I'm experiencing technical difficulties. Please try again later."
  | _ => lit "An unexpected error occurred. Please try again later."
  end.

Definition _get_ai_response (cfg : Config.t) (api : sdk)
    (self : ChatCog) (user_id : Z) (message : str) : str * ChatCog :=
  match try_get_ai_response cfg api self user_id message with
  | Return (ai_response, self') => (ai_response, self')
  | Raise e => (except e, self)
  end.

(** One turn of the loop of [_format_response] over the sentences; the
    state is [(parts, current_part)]. *)
Definition format_step (self : ChatCog) (st : list str * str)
    (sentence : str) : list str * str :=
  let '(parts, current_part) := st in
  if len current_part + len sentence + 1 <=? max_message_length self
  then (parts, current_part ++ strip (sentence ++ lit " "))
  else
    ((if truthy current_part then parts ++ [strip current_part] else parts),
     sentence ++ lit " ").

Definition _format_response (self : ChatCog) (response : str) : list str :=
  if len response <=? max_message_length self then [response]
  else
    (* Split by sentences first *)
    let sentences := split_sentences response in
    let '(parts, current_part) :=
      fold_left (format_step self) sentences ([], []) in
    (* Add remaining part *)
    if truthy current_part then parts ++ [strip current_part] else parts.

(** What [clear_command] does to the store; the boolean tells whether
    there was a history to delete. *)
Definition clear_command (self : ChatCog) (user_id : Z) : bool * ChatCog :=
  match conversation_history self !! user_id with
  | Some _ =>
      (true,
       set_conversation_history self
         (delete user_id (conversation_history self)))
  | None => (false, self)
  end.

(** *** Runs of the store

    The store is created empty by [__init__] and changes in two places only:
    the append of a successful exchange and [/clear]. *)
Definition history (self : ChatCog) (user_id : Z) : list message :=
  get_or (conversation_history self !! user_id) [].

Inductive op :=
| Exchange (user_id : Z) (user_message ai_response : str)
| Clear (user_id : Z).

Definition apply (self : ChatCog) (o : op) : ChatCog :=
  match o with
  | Exchange user_id user_message ai_response =>
      _update_conversation_history self user_id user_message ai_response
  | Clear user_id => (clear_command self user_id).2
  end.

Definition run (ops : list op) : ChatCog := fold_left apply ops __init__.

(** Everything appended for [user_id] since that user's last [/clear], oldest
    first. *)
Definition appended_step (user_id : Z) (acc : list message) (o : op)
    : list message :=
  match o with
  | Exchange u user_message ai_response =>
      if decide (u = user_id)
      then acc ++ [Message user user_message; Message assistant ai_response]
      else acc
  | Clear u => if decide (u = user_id) then [] else acc
  end.

Definition appended (user_id : Z) (ops : list op) : list message :=
  fold_left (appended_step user_id) ops [].

(** A history made of whole turns: a user entry, then the assistant's. *)
Inductive turns : list message -> Prop :=
| turns_nil : turns []
| turns_cons user_message ai_response l :
    turns l ->
    turns (Message user user_message :: Message assistant ai_response :: l).

End Chat.

(** ** [src/web_server.py] *)
Module Web.
Import Provider.

(** A stored item, [{'role': ..., 'content': ..., 'timestamp': ...}]. *)
Record item := Item { item_role : role; item_content : str; timestamp : str }.

#[global] Instance item_eq_dec : EqDecision item.
Proof. solve_decision. Defined.

Definition system_prompt : str :=
  lit "You are a helpful AI assistant in a Discord/web app. Be concise, friendly, and accurate.".

(** [conversation_history.get(user_id, [])] *)
Definition get (conversation_history : gmap str (list item)) (user_id : str)
    : list item :=
  get_or (conversation_history !! user_id) [].

Definition _build_messages (conversation_history : gmap str (list item))
    (user_id : str) (current_message : str) : list message :=
  let messages := [Message system system_prompt] in
  (* include last 10 exchanges if available *)
  let history := slice_from (-20) (get conversation_history user_id) in
  let messages :=
    fold_left
      (fun messages item =>
         let role :=
           if decide (item_role item = ai) then assistant
           else item_role item in
         let content := item_content item in
         if truthy content then messages ++ [Message role content]
         else messages)
      history messages in
  messages ++ [Message user current_message].

Definition flatten_step (acc : str * list str) (m : message)
    : str * list str :=
  let '(system_instructions, history_parts) := acc in
  match role_of m with
  | system => (content m, history_parts)
  | user =>
      (system_instructions, history_parts ++ [lit "User: " ++ content m])
  | assistant =>
      (system_instructions,
       history_parts ++ [lit "Assistant: " ++ content m])
  | ai => acc
  end.

(** The body of the [try] of [generate_ai_response]. *)
Definition try_generate_ai_response (cfg : Config.t) (api : sdk)
    (messages : list message) : result str :=
  match dispatch (Config.ai_provider cfg) with
  | OpenAI =>
      let model :=
        strip (or_else (Some (Config.openai_model cfg))
                       (lit "gpt-4o-mini")) in
      resp ← chat_completions_create api model messages;
      match choices resp with
      | [] => Raise IndexError
      | content :: _ =>
          let text := strip (or_else content []) in
          if truthy text then mret text
          else Raise (RuntimeError (lit "Empty response from OpenAI"))
      end
  | Gemini =>
      let model_name :=
        strip (or_else (Some (Config.gemini_model cfg))
                       (lit "gemini-1.5-flash")) in
      let '(system_instructions, history_parts) :=
        fold_left flatten_step messages ([], []) in
      let prompt :=
        join Chat.newline
             (filter (fun p => truthy p = true) history_parts) in
      result ← generate_content api model_name
                 (if truthy system_instructions
                  then Some system_instructions else None)
                 prompt;
      text ← getattr_text result;
      let text := strip (or_else text []) in
      if truthy text then mret text
      else
        (* Fallback extraction from candidates if needed *)
        let text :=
          match candidates result with
          | Some (cand :: cands) =>
              strip (join Chat.newline
                       (filter (fun p => truthy p = true)
                               (omap id (cand :: cands))))
          | _ => []
          end in
        if truthy text then mret text
        else Raise (RuntimeError (lit "Empty response from Gemini"))
  | Unsupported =>
      Raise (ValueError
               (lit "Unsupported AI provider: " ++ Config.ai_provider cfg))
  end.

Definition unavailable : str :=
  lit "The AI service is currently unavailable."
  ++ lit " Verify API keys, model names, and outbound network connectivity.".

Definition generate_ai_response (cfg : Config.t) (api : sdk)
    (conversation_history : gmap str (list item))
    (user_id : str) (message : str) : str :=
  let messages := _build_messages conversation_history user_id message in
  match try_generate_ai_response cfg api messages with
  | Return text => text
  | Raise _ => unavailable
  end.

(** The value of ['message'] in a JSON body: a string, or anything else
    ([null], a number, a list, ...), which has no [strip]. *)
Inductive json_value :=
| JsonString (s : str)
| JsonOther.

(** A request to [/api/chat]: the JSON body ([None] when [get_json] raises
    or returns something that is no object, [Some None] when the object has no
    ['message']), the session's user id and the three readings of the clock. *)
Record request := {
  json : option (option json_value);
  session_user_id : option str;
  now : nat -> str
}.

Inductive response :=
| Ok200 (response : str) (timestamp : str)
| Error400
| Error500.

Definition chat (cfg : Config.t) (api : sdk)
    (conversation_history : gmap str (list item)) (req : request)
    : response * gmap str (list item) :=
  match json req with
  | None => (Error500, conversation_history)
  | Some data =>
      match get_or data (JsonString []) with
      | JsonOther => (Error500, conversation_history)
      | JsonString text =>
          let message := strip text in
          let user_id := get_or (session_user_id req) (lit "anonymous") in
          if negb (truthy message) then (Error400, conversation_history)
          else
            (* Store user message *)
            let conversation_history :=
              <[user_id :=
                  get conversation_history user_id
                  ++ [Item user message (now req 0%nat)]]>
                conversation_history in
            (* Generate AI response *)
            let ai_response :=
              generate_ai_response cfg api conversation_history user_id
                                   message in
            (* Store AI response *)
            let conversation_history :=
              <[user_id :=
                  get conversation_history user_id
                  ++ [Item ai ai_response (now req 1%nat)]]>
                conversation_history in
            (Ok200 ai_response (now req 2%nat), conversation_history)
      end
  end.

(** *** Runs of the store

    The module starts with an empty store; [/api/chat] and
    [/api/clear-history] change it. *)
Definition clear_history (conversation_history : gmap str (list item))
    (session : option str) : gmap str (list item) :=
  delete (get_or session (lit "anonymous")) conversation_history.

Inductive op :=
| PostChat (api : sdk) (req : request)
| PostClearHistory (session : option str).

Definition apply (cfg : Config.t) (conversation_history : gmap str (list item))
    (o : op) : gmap str (list item) :=
  match o with
  | PostChat api req => (chat cfg api conversation_history req).2
  | PostClearHistory session => clear_history conversation_history session
  end.

(** The store after requests that are served one after the other, each to
    its end before the next begins.  The stores that overlapping requests
    leave are those of [interleaving]. *)
Definition run (cfg : Config.t) (ops : list op) : gmap str (list item) :=
  fold_left (apply cfg) ops ∅.

(** The prompt entry [_build_messages] makes of a stored item. *)
Definition to_message (i : item) : message :=
  Message (if decide (item_role i = ai) then assistant else item_role i)
          (item_content i).

(** *** The store under overlapping requests

    The server runs threaded, and a request to [/api/chat] touches the store
    in separate steps with the call of the provider between them, so the
    steps of different requests interleave.  The steps are: the creation of an
    empty history ([conversation_history[user_id] = []]), the append of the
    user's item, the append of the answer's item, whose text was computed from
    the store as it was [seen] when the prompt was built, and the deletion of
    [/api/clear-history].  An append looks the history up first: when another
    request has deleted it in between, the lookup raises and nothing is
    stored. *)
Inductive action :=
| Create (user_id : str)
| StoreMessage (user_id : str) (text : str) (t : str)
| StoreAnswer (cfg : Config.t) (api : sdk) (seen : gmap str (list item))
              (user_id : str) (message : str) (t : str)
| Delete (user_id : str).

Definition append_item (conversation_history : gmap str (list item))
    (user_id : str) (i : item) : gmap str (list item) :=
  match conversation_history !! user_id with
  | Some history => <[user_id := history ++ [i]]> conversation_history
  | None => conversation_history
  end.

Definition act (conversation_history : gmap str (list item)) (a : action)
    : gmap str (list item) :=
  match a with
  | Create user_id => <[user_id := []]> conversation_history
  | StoreMessage user_id text t =>
      let message := strip text in
      if truthy message
      then append_item conversation_history user_id (Item user message t)
      else conversation_history
  | StoreAnswer cfg api seen user_id message t =>
      append_item conversation_history user_id
        (Item ai (generate_ai_response cfg api seen user_id message) t)
  | Delete user_id => delete user_id conversation_history
  end.

(** The store after the steps of any number of requests, in the order in
    which they happened to run. *)
Definition interleaving (actions : list action) : gmap str (list item) :=
  fold_left act actions ∅.

(** The store in which [chat] builds the prompt of a request: the user's
    item is in already. *)
Definition in_flight (conversation_history : gmap str (list item))
    (req : request) (text : str) : gmap str (list item) :=
  <[get_or (session_user_id req) (lit "anonymous") :=
      get conversation_history (get_or (session_user_id req) (lit "anonymous"))
      ++ [Item user (strip text) (now req 0%nat)]]> conversation_history.

End Web.

(** ** Vocabulary of the statements *)

(** No white space at either end. *)
Definition trimmed (s : str) : Prop :=
  (forall c, head s = Some c -> is_space c = false)
  /\ (forall c, last s = Some c -> is_space c = false).

(** Some character is not white space. *)
Definition has_nonspace (s : str) : Prop :=
  Exists (fun c => is_space c = false) s.

#[global] Instance has_nonspace_dec (s : str) : Decision (has_nonspace s).
Proof. unfold has_nonspace. apply _. Defined.

(** [n] copies of [s], Python's [s * n]. *)
Fixpoint times (s : str) (n : nat) : str :=
  match n with
  | O => []
  | S n' => s ++ times s n'
  end.

(** A chunk either fits, or it is one sentence that is itself too long. *)
Definition fits_or_long_sentence (L : Z) (sentences : list str) (chunk : str)
    : Prop :=
  len chunk <= L
  \/ exists sentence,
       sentence ∈ sentences /\ L < len sentence /\ chunk = strip sentence.

(** The call of the configured provider raises [e], whatever it is sent. *)
Definition call_fails (cfg : Config.t) (api : Provider.sdk) (e : exn) : Prop :=
  match Provider.dispatch (Config.ai_provider cfg) with
  | Provider.OpenAI =>
      forall model messages,
        Provider.chat_completions_create api model messages = Raise e
  | Provider.Gemini =>
      forall model system_instruction prompt,
        Provider.generate_content api model system_instruction prompt = Raise e
  | Provider.Unsupported => False
  end.

(** The number of system entries of a prompt. *)
Definition system_entries (messages : list message) : nat :=
  length (filter (fun m => role_of m = system) messages).

(** ** Sample configurations, providers and requests for the examples *)

Definition sample_environ : Config.environ :=
  {| Config.DISCORD_TOKEN := Some (lit "token");
     Config.AI_PROVIDER := Some (lit " OpenAI ");
     Config.OPENAI_API_KEY := Some (lit "key");
     Config.OPENAI_MODEL := None;
     Config.GEMINI_API_KEY := None;
     Config.GEMINI_MODEL := None |}.

Definition openai_config : Config.t :=
  {| Config.discord_token := Some (lit "token");
     Config.ai_provider := lit "openai";
     Config.openai_api_key := Some (lit "key");
     Config.openai_model := lit "gpt-4o-mini";
     Config.gemini_api_key := None;
     Config.gemini_model := lit "gemini-1.5-flash" |}.

Definition gemini_config : Config.t :=
  {| Config.discord_token := Some (lit "token");
     Config.ai_provider := lit "gemini";
     Config.openai_api_key := None;
     Config.openai_model := lit "gpt-4o-mini";
     Config.gemini_api_key := Some (lit "key");
     Config.gemini_model := lit "gemini-1.5-flash" |}.

(** A provider that answers every call with the same content. *)
Definition answering (content : option str) : Provider.sdk :=
  {| Provider.chat_completions_create := fun _ _ =>
       Return {| Provider.choices := [content] |};
     Provider.generate_content := fun _ _ _ =>
       Return {| Provider.text := Return content;
                 Provider.candidates := None |} |}.

(** A provider whose every call raises [e]. *)
Definition failing (e : exn) : Provider.sdk :=
  {| Provider.chat_completions_create := fun _ _ => Raise e;
     Provider.generate_content := fun _ _ _ => Raise e |}.

(** An anonymous request to [/api/chat] with the given message. *)
Definition post (message : str) : Web.request :=
  {| Web.json := Some (Some (Web.JsonString message));
     Web.session_user_id := None;
     Web.now := fun _ => lit "2024-01-01T00:00:00" |}.

(** ** [src/config.py] and [src/main.py]: validity and start-up *)
Module Startup.

(** The property [Config.is_valid]. *)
Definition is_valid (self : Config.t) : bool :=
  if decide (Config.ai_provider self = lit "openai")
  then negb (Config.unset (Config.discord_token self))
       && negb (Config.unset (Config.openai_api_key self))
  else if decide (Config.ai_provider self = lit "gemini")
  then negb (Config.unset (Config.discord_token self))
       && negb (Config.unset (Config.gemini_api_key self))
  else false.

(** How the process goes on: the import of [config] raised, [main] left with
    [sys.exit(1)], or [main] called [bot.start] with the token. *)
Inductive outcome :=
| ImportError (e : exn)
| Exit1
| BotStart (token : option str).

(** [main()] up to the call of [bot.start]. *)
Definition main (config : Config.t) : outcome :=
  if negb (is_valid config) then Exit1
  else BotStart (Config.discord_token config).

(** [python main.py]: the module [config] builds [Config()] when it is
    imported, then [main()] runs. *)
Definition program (env : Config.environ) : outcome :=
  match Config.__init__ env with
  | Raise e => ImportError e
  | Return config => main config
  end.

End Startup.

(** ** [src/cogs/chat.py]: the slash commands *)
Module Cog.
Import Provider.

(** A message handed to Discord, by [interaction.followup.send] or by
    [interaction.channel.send]. *)
Inductive sent :=
| Followup (text : str)
| ChannelSend (text : str).

(** Discord as the command sees it: [defer] returns or raises, and a send
    returns or raises depending on the message. *)
Record discord := {
  defer_ok : bool;
  accepts : sent -> bool
}.

Definition split_notice : str :=
  lit "Response split into multiple messages due to length.".

Definition error_notice : str :=
  lit "An error occurred while processing your request. Please try again.".

(** The sends of [chat_command] for the parts of an answer, in their
    order. *)
Definition sends (response_parts : list str) : list sent :=
  match response_parts with
  | [part] => [Followup part]
  | _ =>
      imap (fun i part =>
              match i with
              | O => Followup part
              | S _ => ChannelSend part
              end)
           response_parts
      ++ [Followup split_notice]
  end.

(** The sends are awaited one after the other; the first one that raises
    ends the [try] body.  The result is what was delivered and whether the
    body came to its end. *)
Fixpoint deliver (d : discord) (plan : list sent) : list sent * bool :=
  match plan with
  | [] => ([], true)
  | m :: plan' =>
      if accepts d m
      then let '(delivered, finished) := deliver d plan' in
           (m :: delivered, finished)
      else ([], false)
  end.

(** The [except] clause of [chat_command]: one more send, which is itself
    delivered or not. *)
Definition report_error (d : discord) : list sent :=
  if accepts d (Followup error_notice) then [Followup error_notice] else [].

Definition chat_command (d : discord) (cfg : Config.t) (api : sdk)
    (self : Chat.ChatCog) (user_id : Z) (message : str)
    : list sent * Chat.ChatCog :=
  if defer_ok d then
    (* Get AI response *)
    let '(ai_response, self) :=
      Chat._get_ai_response cfg api self user_id message in
    (* Format response for Discord *)
    let response_parts := Chat._format_response self ai_response in
    (* Send response *)
    let '(delivered, finished) := deliver d (sends response_parts) in
    (if finished then delivered else delivered ++ report_error d, self)
  else (report_error d, self).

(** *** Runs of the commands *)
Inductive command :=
| ChatCommand (d : discord) (api : sdk) (user_id : Z) (message : str)
| ClearCommand (user_id : Z).

Definition exec (cfg : Config.t) (self : Chat.ChatCog) (c : command)
    : Chat.ChatCog :=
  match c with
  | ChatCommand d api user_id message =>
      (chat_command d cfg api self user_id message).2
  | ClearCommand user_id => (Chat.clear_command self user_id).2
  end.

Definition run_commands (cfg : Config.t) (commands : list command)
    : Chat.ChatCog :=
  fold_left (exec cfg) commands Chat.__init__.


(** Discord's own rule for a message: between 1 and 2000 characters. *)
Definition within_limit (m : sent) : bool :=
  match m with
  | Followup text | ChannelSend text => (1 <=? len text) && (len text <=? 2000)
  end.

End Cog.

(** ** [src/web_server.py]: the other endpoints *)
Module WebApi.

(** The body of the answer of [/api/status]. *)
Record status_body := {
  discord : str;
  provider : str;
  model : str;
  ai_status : str;
  status_timestamp : str
}.

Definition status (cfg : Config.t) (now : str) : status_body :=
  {| discord := lit "online";
     provider := Config.ai_provider cfg;
     model := if decide (Config.ai_provider cfg = lit "openai")
              then Config.openai_model cfg else Config.gemini_model cfg;
     ai_status := lit "online";
     status_timestamp := now |}.

(** [/api/stats]: [sum(len(conv) for conv in conversation_history.values())]
    and [len(conversation_history)]. *)
Record stats_body := { total_messages : Z; unique_users : Z }.

Definition stats (conversation_history : gmap str (list Web.item))
    : stats_body :=
  {| total_messages :=
       map_fold (fun _ conv total => total + len conv) 0 conversation_history;
     unique_users := Z.of_nat (size conversation_history) |}.

(** [/api/history] *)
Definition history (conversation_history : gmap str (list Web.item))
    (session : option str) : list Web.item :=
  Web.get conversation_history (get_or session (lit "anonymous")).

(** A stored history made of whole exchanges: the user's item, then the
    answer's. *)
Inductive exchanges : list Web.item -> Prop :=
| exchanges_nil : exchanges []
| exchanges_cons message t ai_response t' l :
    exchanges l ->
    exchanges (Web.Item user message t :: Web.Item ai ai_response t' :: l).

End WebApi.

(** The characters of a text that are not white space, in their order. *)
Definition visible (s : str) : str :=
  filter (fun c => is_space c = false) s.

(** All of Discord's answers are in: [defer] returns and every send of a
    message within the limit returns. *)
Definition discord_up (d : Cog.discord) : Prop :=
  Cog.defer_ok d = true
  /\ forall m, Cog.within_limit m = true -> Cog.accepts d m = true.

(** A Discord that takes what is within its limit and nothing else. *)
Definition strict_discord : Cog.discord :=
  {| Cog.defer_ok := true; Cog.accepts := Cog.within_limit |}.

(** * Facts about the Python primitives *)

Section PyFacts.

Lemma len_app {A} (l1 l2 : list A) : len (l1 ++ l2) = len l1 + len l2.
Proof. unfold len. rewrite length_app. lia. Qed.

Lemma len_nonneg {A} (l : list A) : 0 <= len l.
Proof. unfold len. lia. Qed.

Lemma truthy_true {A} (l : list A) : truthy l = true <-> l <> [].
Proof. destruct l; simpl; split; congruence. Qed.


Lemma lstrip_length s : (length (lstrip s) <= length s)%nat.
Proof.
  induction s as [|c s IH]; simpl; [lia|].
  destruct (is_space c); simpl; lia.
Qed.

Lemma rstrip_length s : (length (rstrip s) <= length s)%nat.
Proof.
  induction s as [|c s IH]; simpl; [lia|].
  destruct (rstrip s); [destruct (is_space c)|]; simpl in *; lia.
Qed.

Lemma strip_len s : len (strip s) <= len s.
Proof.
  unfold strip, len.
  pose proof (rstrip_length (lstrip s)). pose proof (lstrip_length s). lia.
Qed.

Lemma rstrip_app_space s c : is_space c = true -> rstrip (s ++ [c]) = rstrip s.
Proof.
  intros Hc. induction s as [|c0 s IH]; simpl.
  - now rewrite Hc.
  - now rewrite IH.
Qed.

Lemma lstrip_app_space s c :
  is_space c = true ->
  lstrip (s ++ [c]) = lstrip s ++ [c]
  \/ (lstrip s = [] /\ lstrip (s ++ [c]) = []).
Proof.
  intros Hc. induction s as [|c0 s IH]; simpl.
  - right. now rewrite Hc.
  - destruct (is_space c0); [exact IH | now left].
Qed.

Lemma strip_app_space s : strip (s ++ lit " ") = strip s.
Proof.
  unfold strip.
  destruct (lstrip_app_space s " "%char eq_refl) as [E|[E1 E2]].
  - change (lit " ") with [" "%char]. rewrite E.
    now apply rstrip_app_space.
  - change (lit " ") with [" "%char]. now rewrite E1, E2.
Qed.

(** [rstrip] keeps a prefix and [lstrip] a suffix. *)
Lemma rstrip_prefix s : exists t, s = rstrip s ++ t.
Proof.
  induction s as [|c s [t IH]]; simpl; [now exists []|].
  destruct (rstrip s) as [|r rs] eqn:E.
  - destruct (is_space c).
    + now exists (c :: s).
    + exists s. reflexivity.
  - exists t. simpl. f_equal. exact IH.
Qed.

Lemma lstrip_head s c : head (lstrip s) = Some c -> is_space c = false.
Proof.
  induction s as [|c0 s IH]; simpl; [discriminate|].
  destruct (is_space c0) eqn:E; [exact IH|].
  simpl. intros [= <-]. exact E.
Qed.

Lemma rstrip_last s c : last (rstrip s) = Some c -> is_space c = false.
Proof.
  revert c. induction s as [|c0 s IH]; simpl; intros c; [discriminate|].
  destruct (rstrip s) as [|r rs] eqn:E.
  - destruct (is_space c0) eqn:E0; simpl; [discriminate|].
    now intros [= <-].
  - intros H. apply IH. exact H.
Qed.

Lemma strip_trimmed s : trimmed (strip s).
Proof.
  split; intros c H.
  - unfold strip in H. destruct (rstrip_prefix (lstrip s)) as [t Ht].
    apply (lstrip_head s). rewrite Ht.
    destruct (rstrip (lstrip s)); [discriminate|exact H].
  - now apply (rstrip_last (lstrip s)).
Qed.

Lemma lstrip_has_nonspace s : has_nonspace s -> has_nonspace (lstrip s).
Proof.
  unfold has_nonspace. induction 1 as [c s H|c s H IH]; simpl.
  - rewrite H. now constructor.
  - destruct (is_space c) eqn:E; [exact IH|]. now constructor.
Qed.

Lemma rstrip_nonempty s : has_nonspace s -> rstrip s <> [].
Proof.
  unfold has_nonspace. induction 1 as [c s H|c s H IH]; simpl.
  - rewrite H. now destruct (rstrip s).
  - now destruct (rstrip s).
Qed.

Lemma strip_nonempty s : has_nonspace s -> strip s <> [].
Proof. intros H. apply rstrip_nonempty, lstrip_has_nonspace, H. Qed.

Lemma has_nonspace_app_l s t : has_nonspace s -> has_nonspace (s ++ t).
Proof. unfold has_nonspace. intros H. apply Exists_app. now left. Qed.

Lemma slice_from_neg {A} (k : Z) (l : list A) :
  0 < k -> slice_from (- k) l = drop (length l - Z.to_nat k) l.
Proof.
  intros Hk. unfold slice_from, len.
  destruct (Z.ltb_spec (- k) 0); [|lia].
  f_equal. lia.
Qed.

End PyFacts.

(** * The response chunker, [_format_response] *)

Section FormatResponse.
Import Chat.

Variable self : ChatCog.

(** What the loop may hold in [current_part]: nothing yet, a text that
    fits, or one sentence with the blank the loop puts after it. *)
Lemma strip_current_ok (all : list str) current_part :
  (current_part = []
   \/ len current_part <= max_message_length self
   \/ exists s, s ∈ all /\ current_part = s ++ lit " ") ->
  truthy current_part = true ->
  fits_or_long_sentence (max_message_length self) all (strip current_part).
Proof.
  intros [->|[Hle|(s & Hs & ->)]] Ht; [discriminate| |].
  - left. pose proof (strip_len current_part). lia.
  - rewrite strip_app_space.
    destruct (Z.leb_spec (len (strip s)) (max_message_length self)).
    + now left.
    + right. exists s. pose proof (strip_len s). repeat split; [done|lia].
Qed.

Lemma format_fold_length (all : list str) sentences parts current_part :
  (forall s, s ∈ sentences -> s ∈ all) ->
  Forall (fits_or_long_sentence (max_message_length self) all) parts ->
  (current_part = []
   \/ len current_part <= max_message_length self
   \/ exists s, s ∈ all /\ current_part = s ++ lit " ") ->
  Forall (fits_or_long_sentence (max_message_length self) all)
         (fold_left (format_step self) sentences (parts, current_part)).1
  /\ (truthy (fold_left (format_step self) sentences
                        (parts, current_part)).2 = true ->
      fits_or_long_sentence (max_message_length self) all
        (strip (fold_left (format_step self) sentences
                          (parts, current_part)).2)).
Proof.
  revert parts current_part.
  induction sentences as [|s sentences IH]; intros parts cur Hall Hparts Hcur.
  - simpl. split; [exact Hparts|]. now apply strip_current_ok.
  - cbn [fold_left]. unfold format_step at 2 4 6.
    assert (Hs : s ∈ all) by (apply Hall; left).
    assert (Hall' : forall s0, s0 ∈ sentences -> s0 ∈ all)
      by (intros; apply Hall; now right).
    destruct (Z.leb_spec (len cur + len s + 1) (max_message_length self))
      as [Hfit|Hnofit].
    + apply IH; [exact Hall'|exact Hparts|].
      right; left. rewrite len_app, strip_app_space.
      pose proof (strip_len s). lia.
    + apply IH; [exact Hall'| |right; right; now exists s].
      destruct (truthy cur) eqn:Ht; [|exact Hparts].
      apply Forall_app. split; [exact Hparts|].
      constructor; [|constructor]. now apply strip_current_ok.
Qed.

(** The same loop, for the shape of the chunks: closed parts are stripped
    texts, and the open part is empty or has a visible character as soon as
    every sentence has one. *)
Lemma format_fold_trimmed sentences parts current_part :
  Forall trimmed parts ->
  Forall trimmed
         (fold_left (format_step self) sentences (parts, current_part)).1.
Proof.
  revert parts current_part.
  induction sentences as [|s sentences IH]; intros parts cur Hparts.
  - exact Hparts.
  - cbn [fold_left]. unfold format_step at 2.
    destruct (len cur + len s + 1 <=? max_message_length self).
    + now apply IH.
    + apply IH. destruct (truthy cur); [|exact Hparts].
      apply Forall_app. split; [exact Hparts|].
      constructor; [apply strip_trimmed|constructor].
Qed.

Lemma format_fold_nonempty sentences parts current_part :
  Forall has_nonspace sentences ->
  Forall (fun p => p <> []) parts ->
  (current_part = [] \/ has_nonspace current_part) ->
  Forall (fun p => p <> [])
         (fold_left (format_step self) sentences (parts, current_part)).1
  /\ ((fold_left (format_step self) sentences (parts, current_part)).2 = []
      \/ has_nonspace
           (fold_left (format_step self) sentences (parts, current_part)).2).
Proof.
  revert parts current_part.
  induction sentences as [|s sentences IH]; intros parts cur Hs Hparts Hcur.
  - simpl. now split.
  - cbn [fold_left]. unfold format_step at 2 4 6.
    apply Forall_cons in Hs as [Hs Hrest].
    destruct (len cur + len s + 1 <=? max_message_length self).
    + apply IH; [exact Hrest|exact Hparts|].
      right. destruct Hcur as [->|Hcur].
      * simpl. rewrite strip_app_space.
        pose proof (strip_nonempty s Hs) as Hne.
        unfold has_nonspace.
        destruct (strip s) as [|c r] eqn:E; [done|].
        pose proof (strip_trimmed s) as [Hhead _]. rewrite E in Hhead.
        constructor. now apply Hhead.
      * now apply has_nonspace_app_l.
    + apply IH; [exact Hrest| |right; now apply has_nonspace_app_l].
      destruct (truthy cur) eqn:Ht; [|exact Hparts].
      apply Forall_app. split; [exact Hparts|].
      constructor; [|constructor].
      destruct Hcur as [->|Hcur]; [discriminate|].
      now apply strip_nonempty.
Qed.

End FormatResponse.

(** The chunks of a response, one by one. *)
Lemma format_response_chunk (self : Chat.ChatCog) (response chunk : str) :
  chunk ∈ Chat._format_response self response ->
  fits_or_long_sentence (Chat.max_message_length self)
                        (split_sentences response) chunk.
Proof.
  unfold Chat._format_response.
  destruct (Z.leb_spec (len response) (Chat.max_message_length self)) as [H|H].
  - intros ->%list_elem_of_singleton. now left.
  - pose proof (format_fold_length self (split_sentences response)
                  (split_sentences response) [] []) as Hfold.
    destruct (fold_left (Chat.format_step self) (split_sentences response)
                        ([], [])) as [parts current_part].
    simpl in Hfold.
    destruct Hfold as [Hparts Hcur]; [done|constructor|now left|].
    rewrite Forall_forall in Hparts.
    destruct (truthy current_part); [|apply Hparts].
    intros [Hin| ->%list_elem_of_singleton]%elem_of_app;
      [now apply Hparts|now apply Hcur].
Qed.

(** C4. Every chunk returned by [_format_response] has length at most
    [max_message_length], the one exception being a chunk that consists of a
    single sentence which is itself longer than that and which the algorithm
    does not split. *)
Theorem format_response_chunk_length (self : Chat.ChatCog) (response : str) :
  Forall (fits_or_long_sentence (Chat.max_message_length self)
                                (split_sentences response))
         (Chat._format_response self response).
Proof. apply Forall_forall. intros chunk. apply format_response_chunk. Qed.

(** When no sentence is longer than the limit, no chunk is. *)
Corollary format_response_all_fit (self : Chat.ChatCog) (response : str) :
  Forall (fun s => len s <= Chat.max_message_length self)
         (split_sentences response) ->
  Forall (fun chunk => len chunk <= Chat.max_message_length self)
         (Chat._format_response self response).
Proof.
  intros Hs. apply Forall_forall. intros chunk Hchunk.
  destruct (format_response_chunk _ _ _ Hchunk)
    as [H|(s & Hin & Hlong & _)]; [exact H|].
  rewrite Forall_forall in Hs. specialize (Hs s Hin). simpl in Hs. lia.
Qed.

(** C7. A text that is not longer than [max_message_length] is returned as
    the only chunk, unmodified. *)
Theorem format_response_short (self : Chat.ChatCog) (text : str) :
  len text <= Chat.max_message_length self ->
  Chat._format_response self text = [text].
Proof.
  intros H. unfold Chat._format_response.
  now destruct (Z.leb_spec (len text) (Chat.max_message_length self)); [|lia].
Qed.

Lemma format_response_short_witness :
  len (lit "Hello. World.") <= Chat.max_message_length Chat.__init__
  /\ Chat._format_response Chat.__init__ (lit "Hello. World.")
     = [lit "Hello. World."].
Proof.
  split; [now vm_compute | apply format_response_short; now vm_compute].
Defined.

(** C6, as stated, fails on the short path: the empty text comes back as one
    empty chunk, and a padded short text comes back with its padding. *)
Lemma format_response_short_not_trimmed :
  ~ Forall (fun chunk => chunk <> [] /\ trimmed chunk)
           (Chat._format_response Chat.__init__ (lit ""))
  /\ ~ Forall (fun chunk => chunk <> [] /\ trimmed chunk)
              (Chat._format_response Chat.__init__ (lit " hi ")).
Proof.
  split; intros H; apply Forall_cons in H as [[Hne [Hhead _]] _].
  - now apply Hne.
  - specialize (Hhead " "%char eq_refl). discriminate Hhead.
Qed.

(** C6, amended. A text that is not longer than [max_message_length] is
    returned as it is, with whatever white space surrounds it and also when
    it is empty.  For a longer text every chunk is trimmed of surrounding
    white space, and no chunk is empty when every sentence of the text has a
    character that is not white space. *)
Theorem format_response_chunks_shape (self : Chat.ChatCog) (response : str) :
  (len response <= Chat.max_message_length self ->
   Chat._format_response self response = [response])
  /\ (Chat.max_message_length self < len response ->
      Forall trimmed (Chat._format_response self response)
      /\ (Forall has_nonspace (split_sentences response) ->
          Forall (fun chunk => chunk <> [])
                 (Chat._format_response self response))).
Proof.
  unfold Chat._format_response.
  destruct (Z.leb_spec (len response) (Chat.max_message_length self));
    (split; [intros Hshort|intros Hlong]); [done|lia|lia|].
  pose proof (format_fold_trimmed self (split_sentences response) [] [])
    as Htrim.
  pose proof (format_fold_nonempty self (split_sentences response) [] [])
    as Hne.
  destruct (fold_left (Chat.format_step self) (split_sentences response)
                      ([], [])) as [parts current_part].
  simpl in Htrim, Hne. split.
  - destruct (truthy current_part); [|now apply Htrim].
    apply Forall_app. split; [now apply Htrim|].
    constructor; [apply strip_trimmed|constructor].
  - intros Hs. destruct (Hne Hs) as [Hparts Hcur]; [constructor|now left|].
    destruct (truthy current_part) eqn:Ht; [|exact Hparts].
    apply Forall_app. split; [exact Hparts|].
    constructor; [|constructor].
    destruct Hcur as [->|Hcur]; [discriminate|]. now apply strip_nonempty.
Qed.

Lemma format_response_chunks_shape_witness :
  let response := times (lit "Hi there. ") 300 ++ lit "Bye." in
  Chat.max_message_length Chat.__init__ < len response
  /\ Forall trimmed (Chat._format_response Chat.__init__ response)
  /\ Forall (fun chunk => chunk <> [])
            (Chat._format_response Chat.__init__ response).
Proof.
  intros response.
  assert (Hlong : Chat.max_message_length Chat.__init__ < len response)
    by now vm_compute.
  assert (Hs : Forall has_nonspace (split_sentences response)).
  { apply (bool_decide_unpack _). vm_compute. exact I. }
  destruct (format_response_chunks_shape Chat.__init__ response)
    as [_ Hshape].
  destruct (Hshape Hlong) as [Htrim Hne].
  split; [exact Hlong|]. split; [exact Htrim|exact (Hne Hs)].
Defined.

(** C5 fails on the code: the loop strips the blank it has just put after a
    sentence, so sentences packed into one chunk are fused.  A thousand
    copies of ["A. "] come back as 999 sentences glued together and one more
    chunk, which is not the text up to white space. *)
Theorem format_response_fuses_sentences :
  let response := times (lit "A. ") 1000 in
  let chunks := Chat._format_response Chat.__init__ response in
  chunks = [times (lit "A.") 999; lit "A."]
  /\ normalize (join (lit " ") chunks) <> normalize response.
Proof.
  split.
  - vm_compute. reflexivity.
  - intros H. vm_compute in H. discriminate H.
Qed.

(** * The conversation store of the cog *)

Section ChatStore.
Import Chat.

Lemma update_history self user_id user_message ai_response :
  history (_update_conversation_history self user_id user_message ai_response)
          user_id
  = let h := history self user_id
             ++ [Message user user_message; Message assistant ai_response] in
    if len h >? max_history_length self * 2
    then slice_from (- max_history_length self * 2) h else h.
Proof.
  unfold history, _update_conversation_history. simpl.
  rewrite lookup_insert_eq. simpl.
  now destruct (conversation_history self !! user_id).
Qed.

Lemma update_history_other self user_id user_message ai_response other :
  other <> user_id ->
  history (_update_conversation_history self user_id user_message ai_response)
          other
  = history self other.
Proof.
  intros Hne. unfold history, _update_conversation_history. simpl.
  now rewrite lookup_insert_ne.
Qed.

Lemma clear_history_eq self user_id :
  history (clear_command self user_id).2 user_id = [].
Proof.
  unfold history, clear_command.
  destruct (conversation_history self !! user_id) eqn:E; simpl.
  - now rewrite lookup_delete_eq.
  - now rewrite E.
Qed.

Lemma clear_history_other self user_id other :
  other <> user_id ->
  history (clear_command self user_id).2 other = history self other.
Proof.
  intros Hne. unfold history, clear_command.
  destruct (conversation_history self !! user_id) eqn:E; simpl; [|done].
  now rewrite lookup_delete_ne.
Qed.

Lemma apply_max_history_length self o :
  max_history_length (apply self o) = max_history_length self.
Proof.
  destruct o as [u m r|u]; simpl; [done|].
  unfold clear_command. now destruct (conversation_history self !! u).
Qed.

Lemma run_snoc ops o : run (ops ++ [o]) = apply (run ops) o.
Proof. unfold run. now rewrite fold_left_app. Qed.

Lemma appended_snoc user_id ops o :
  appended user_id (ops ++ [o])
  = appended_step user_id (appended user_id ops) o.
Proof. unfold appended. now rewrite fold_left_app. Qed.

Lemma run_max_history_length ops : max_history_length (run ops) = 10.
Proof.
  induction ops as [|o ops IH] using rev_ind; [done|].
  now rewrite run_snoc, apply_max_history_length.
Qed.

(** The trim of [_update_conversation_history] keeps the last [2 * k]
    entries. *)
Lemma trim_drop {A} (k : Z) (l : list A) :
  0 < k ->
  (if len l >? k then slice_from (- k) l else l)
  = drop (length l - Z.to_nat k) l.
Proof.
  intros Hk. destruct (Z.gtb_spec (len l) k) as [H|H].
  - now apply slice_from_neg.
  - unfold len in H. replace (length l - Z.to_nat k)%nat with 0%nat by lia.
    reflexivity.
Qed.

(** Keeping the last [k] entries before an append changes nothing to the
    last [k] entries after it. *)
Lemma drop_last_app {A} (k : nat) (l x : list A) :
  drop (length (drop (length l - k) l ++ x) - k) (drop (length l - k) l ++ x)
  = drop (length (l ++ x) - k) (l ++ x).
Proof.
  rewrite !length_app, length_drop, !drop_app, length_drop, drop_drop.
  destruct (Nat.le_gt_cases (length l) k) as [H|H].
  - replace (length l - k)%nat with 0%nat by lia.
    rewrite Nat.sub_0_r. reflexivity.
  - f_equal; f_equal; lia.
Qed.

Lemma run_history ops user_id :
  history (run ops) user_id
  = drop (length (appended user_id ops) - 20) (appended user_id ops).
Proof.
  induction ops as [|o ops IH] using rev_ind; [done|].
  rewrite run_snoc, appended_snoc.
  destruct o as [u m r|u]; simpl.
  - destruct (decide (u = user_id)) as [->|Hne].
    + rewrite update_history. cbv zeta.
      rewrite run_max_history_length.
      change (- (10) * 2) with (- (20)). change (10 * 2) with 20.
      rewrite trim_drop by lia. rewrite IH.
      change (Z.to_nat 20) with 20%nat. apply drop_last_app.
    + rewrite update_history_other by done. exact IH.
  - destruct (decide (u = user_id)) as [->|Hne].
    + apply clear_history_eq.
    + rewrite clear_history_other by done. exact IH.
Qed.

Lemma turns_app l user_message ai_response :
  turns l ->
  turns (l ++ [Message user user_message; Message assistant ai_response]).
Proof.
  induction 1; simpl; repeat constructor. assumption.
Qed.

Lemma turns_drop l :
  turns l -> forall n, Nat.even n = true -> turns (drop n l).
Proof.
  induction 1 as [|u a l Hl IH]; intros n Hn.
  - rewrite drop_nil. constructor.
  - destruct n as [|[|n]]; [now constructor|discriminate|].
    simpl. apply IH. exact Hn.
Qed.

Lemma turns_length l : turns l -> Nat.even (length l) = true.
Proof. induction 1; [done|]. simpl. assumption. Qed.

Lemma turns_lookup l :
  turns l ->
  forall i m, l !! i = Some m ->
              role_of m = if Nat.even i then user else assistant.
Proof.
  induction 1 as [|u a l Hl IH]; intros i m Hi; [done|].
  destruct i as [|[|i]]; simpl in Hi.
  - now injection Hi as <-.
  - now injection Hi as <-.
  - apply (IH i m Hi).
Qed.

Lemma turns_appended user_id ops : turns (appended user_id ops).
Proof.
  induction ops as [|o ops IH] using rev_ind; [constructor|].
  rewrite appended_snoc. destruct o as [u m r|u]; simpl.
  - destruct (decide (u = user_id)); [now apply turns_app|exact IH].
  - destruct (decide (u = user_id)); [constructor|exact IH].
Qed.

Lemma even_sub_20 n : Nat.even n = true -> Nat.even (n - 20) = true.
Proof.
  intros Hn. destruct (Nat.le_gt_cases 20 n) as [H|H].
  - rewrite Nat.even_sub by exact H. now rewrite Hn.
  - now replace (n - 20)%nat with 0%nat by lia.
Qed.

Lemma run_turns ops user_id : turns (history (run ops) user_id).
Proof.
  rewrite run_history. apply turns_drop; [apply turns_appended|].
  apply even_sub_20, turns_length, turns_appended.
Qed.

End ChatStore.

(** * The conversation store of the web server *)

Section WebStore.
Import Web.

Lemma build_messages_fold history messages :
  fold_left
    (fun messages item =>
       let role :=
         if decide (item_role item = ai) then assistant else item_role item in
       let content := item_content item in
       if truthy content then messages ++ [Message role content]
       else messages)
    history messages
  = messages
    ++ map to_message
         (filter (fun i => truthy (item_content i) = true) history).
Proof.
  revert messages. induction history as [|i history IH]; intros messages.
  - simpl. now rewrite app_nil_r.
  - cbn [fold_left]. rewrite IH, filter_cons. cbv zeta.
    destruct (truthy (item_content i)) eqn:E.
    + destruct (decide (true = true)); [|congruence].
      simpl. now rewrite <- app_assoc.
    + destruct (decide (false = true)); [congruence|reflexivity].
Qed.

(** The prompt of the web server: the system entry, the non-empty items
    among the last twenty stored, and the new message. *)
Lemma build_messages_eq conversation_history user_id current_message :
  _build_messages conversation_history user_id current_message
  = Message system system_prompt
    :: map to_message
         (filter (fun i => truthy (item_content i) = true)
                 (slice_from (-20) (get conversation_history user_id)))
    ++ [Message user current_message].
Proof. unfold _build_messages. now rewrite build_messages_fold. Qed.

Lemma slice_from_20_length {A} (l : list A) :
  (length (slice_from (-20) l) <= 20)%nat.
Proof.
  rewrite (slice_from_neg 20) by lia. rewrite length_drop.
  change (Z.to_nat 20) with 20%nat. lia.
Qed.

Lemma build_messages_length conversation_history user_id current_message :
  len (_build_messages conversation_history user_id current_message) <= 22.
Proof.
  rewrite build_messages_eq. unfold len. simpl.
  rewrite length_app, length_map. simpl.
  pose proof (length_filter (fun i => truthy (item_content i) = true)
                (slice_from (-20) (get conversation_history user_id))).
  pose proof (slice_from_20_length (get conversation_history user_id)).
  lia.
Qed.

(** An answered request stores the message and the answer, in this order,
    behind everything already stored. *)
Lemma chat_ok_history cfg api conversation_history req r t :
  (chat cfg api conversation_history req).1 = Ok200 r t ->
  exists message,
    message <> []
    /\ (chat cfg api conversation_history req).2
       = <[get_or (session_user_id req) (lit "anonymous") :=
             get conversation_history
                 (get_or (session_user_id req) (lit "anonymous"))
             ++ [Item user message (now req 0%nat); Item ai r (now req 1%nat)]]>
           conversation_history.
Proof.
  unfold chat. destruct (json req) as [data|]; [|discriminate].
  destruct (get_or data (JsonString [])) as [text|]; [|discriminate].
  destruct (truthy (strip text)) eqn:E; simpl; [|discriminate].
  intros [= <- <-]. exists (strip text).
  split; [now apply truthy_true|].
  unfold get at 1. rewrite lookup_insert_eq. simpl.
  rewrite insert_insert_eq, <- app_assoc. reflexivity.
Qed.

End WebStore.

(** C1, as stated, fails for the store of the web server, which appends
    and never trims: eleven answered requests leave 22 entries. *)
Lemma web_history_exceeds_bound :
  let conversation_history :=
    Web.run openai_config
      (repeat (Web.PostChat (answering (Some (lit "ok"))) (post (lit "hi")))
              11) in
  len (Web.get conversation_history (lit "anonymous")) = 22
  /\ ~ len (Web.get conversation_history (lit "anonymous")) <= 2 * 10.
Proof.
  assert (E : len (Web.get
                     (Web.run openai_config
                        (repeat (Web.PostChat (answering (Some (lit "ok")))
                                              (post (lit "hi"))) 11))
                     (lit "anonymous")) = 22) by (vm_compute; reflexivity).
  cbv zeta. rewrite E. split; [reflexivity|lia].
Qed.

(** C1, amended. In the cog, after any sequence of appended exchanges (and
    clears) the stored history of every user has at most
    [2 * max_history_length = 20] entries, and they are the most recent
    entries appended for that user, in their order.  The web server does not
    trim its store: an answered request adds its two entries behind all the
    earlier ones, and the bound is on the prompt read from the store, which
    takes the last 20 entries. *)
Theorem history_bounded_most_recent :
  (forall ops user_id,
     len (Chat.history (Chat.run ops) user_id)
       <= 2 * Chat.max_history_length (Chat.run ops)
     /\ Chat.max_history_length (Chat.run ops) = 10
     /\ Chat.history (Chat.run ops) user_id
        = slice_from (-20) (Chat.appended user_id ops))
  /\ (forall cfg api conversation_history req r t,
        (Web.chat cfg api conversation_history req).1 = Web.Ok200 r t ->
        exists message,
          Web.get (Web.chat cfg api conversation_history req).2
                  (get_or (Web.session_user_id req) (lit "anonymous"))
          = Web.get conversation_history
                    (get_or (Web.session_user_id req) (lit "anonymous"))
            ++ [Web.Item user message (Web.now req 0%nat);
                Web.Item ai r (Web.now req 1%nat)])
  /\ (forall conversation_history user_id current_message,
        len (Web._build_messages conversation_history user_id current_message)
        <= 22).
Proof.
  split; [|split].
  - intros ops user_id.
    rewrite run_max_history_length, run_history, (slice_from_neg 20) by lia.
    change (Z.to_nat 20) with 20%nat.
    split; [|done]. unfold len. rewrite length_drop. lia.
  - intros cfg api ch req r t H.
    destruct (chat_ok_history _ _ _ _ _ _ H) as (message & _ & ->).
    exists message. unfold Web.get at 1. now rewrite lookup_insert_eq.
  - apply build_messages_length.
Qed.

(** C10. In the cog, the stored history of every user has even length and
    alternates user and assistant entries, starting with the user's.  An
    exchange puts one user entry and then one assistant entry at the end of
    the history, and what the trim removes is a whole number of pairs from the
    front of what was stored before: the new pair is never cut. *)
Theorem cog_history_whole_turns (ops : list Chat.op) (user_id : Z) :
  Nat.Even (length (Chat.history (Chat.run ops) user_id))
  /\ (forall i m,
        Chat.history (Chat.run ops) user_id !! i = Some m ->
        role_of m = if Nat.even i then user else assistant)
  /\ (forall user_message ai_response,
        exists k,
          (2 * k = length (Chat.history (Chat.run ops) user_id) + 2 - 20)%nat
          /\ Chat.history
               (Chat.run (ops ++ [Chat.Exchange user_id user_message
                                                ai_response]))
               user_id
             = drop (2 * k) (Chat.history (Chat.run ops) user_id)
               ++ [Message user user_message; Message assistant ai_response]).
Proof.
  pose proof (run_turns ops user_id) as Ht.
  split; [|split].
  - apply Nat.even_spec, turns_length, Ht.
  - apply turns_lookup, Ht.
  - intros um ar. rewrite run_snoc. simpl. rewrite update_history. cbv zeta.
    rewrite run_max_history_length.
    change (- (10) * 2) with (- (20)). change (10 * 2) with 20.
    rewrite trim_drop by lia. change (Z.to_nat 20) with 20%nat.
    pose proof (turns_length _ (turns_app _ um ar Ht)) as Hev.
    apply even_sub_20, Nat.even_spec in Hev. destruct Hev as [k Hk].
    rewrite length_app in Hk. simpl in Hk.
    exists k. split; [lia|].
    rewrite length_app. simpl length. rewrite Hk.
    apply drop_app_le. lia.
Qed.

(** * Prompt assembly *)

Section Prompt.

Lemma append_each {A} (l acc : list A) :
  fold_left (fun messages msg => messages ++ [msg]) l acc = acc ++ l.
Proof.
  revert acc. induction l as [|x l IH]; intros acc; simpl.
  - now rewrite app_nil_r.
  - now rewrite IH, <- app_assoc.
Qed.

Lemma build_context_eq self user_id current_message :
  Chat._build_conversation_context self user_id current_message
  = Message system Chat.system_prompt
    :: Chat.history self user_id ++ [Message user current_message].
Proof.
  unfold Chat._build_conversation_context, Chat.history.
  destruct (Chat.conversation_history self !! user_id); simpl; [|done].
  now rewrite append_each.
Qed.

Lemma filter_all {A} (P : A -> Prop) `{forall x, Decision (P x)} (l : list A) :
  Forall P l -> filter P l = l.
Proof.
  induction 1 as [|x l Hx Hl IH]; [done|].
  rewrite filter_cons, decide_True by done. now rewrite IH.
Qed.

Lemma filter_none {A} (P : A -> Prop) `{forall x, Decision (P x)} (l : list A) :
  Forall (fun x => ~ P x) l -> filter P l = [].
Proof.
  induction 1 as [|x l Hx Hl IH]; [done|].
  now rewrite filter_cons, decide_False by done.
Qed.

Lemma system_entries_framed (sys : str) (middle : list message) (m : str) :
  Forall (fun x => role_of x <> system) middle ->
  system_entries (Message system sys :: middle ++ [Message user m]) = 1%nat.
Proof.
  intros Hmid. unfold system_entries.
  rewrite filter_cons, decide_True by done.
  rewrite filter_app, (filter_none _ middle) by done.
  reflexivity.
Qed.

Lemma turns_no_system l :
  Chat.turns l -> Forall (fun x => role_of x <> system) l.
Proof. induction 1; repeat constructor; simpl; congruence. Qed.

Lemma last_framed {A} (x : A) (middle : list A) (y : A) :
  last (x :: middle ++ [y]) = Some y.
Proof. rewrite app_comm_cons. apply last_snoc. Qed.

End Prompt.

(** * The answers of the providers *)

Section Answers.
Import Provider.

(** What [generate_ai_response] takes from a provider is never empty. *)
Lemma try_generate_nonempty cfg api messages answer :
  Web.try_generate_ai_response cfg api messages = Return answer ->
  answer <> [].
Proof.
  unfold Web.try_generate_ai_response.
  destruct (dispatch (Config.ai_provider cfg)); [| |discriminate].
  - destruct (chat_completions_create api _ messages) as [resp|e];
      simpl; [|discriminate].
    destruct (choices resp) as [|c cs]; [discriminate|].
    destruct (truthy (strip (or_else c []))) eqn:E; [|discriminate].
    intros [= <-]. now apply truthy_true.
  - destruct (fold_left Web.flatten_step messages ([], [])) as [si parts].
    destruct (generate_content api _ _ _) as [r|e]; simpl; [|discriminate].
    destruct (getattr_text r) as [t|e]; simpl; [|discriminate].
    destruct (truthy (strip (or_else t []))) eqn:E.
    + intros [= <-]. now apply truthy_true.
    + match goal with
      | |- (if truthy ?t then _ else _) = _ -> _ =>
          destruct (truthy t) eqn:E'; [|discriminate];
          intros [= <-]; now apply truthy_true
      end.
Qed.

Lemma generate_nonempty cfg api conversation_history user_id message :
  Web.generate_ai_response cfg api conversation_history user_id message <> [].
Proof.
  unfold Web.generate_ai_response.
  destruct (Web.try_generate_ai_response _ _ _) as [answer|e] eqn:E.
  - now apply try_generate_nonempty in E.
  - discriminate.
Qed.

(** The Gemini branch of the cog refuses an empty answer as well. *)
Lemma cog_gemini_nonempty cfg api self user_id message r self' :
  dispatch (Config.ai_provider cfg) = Gemini ->
  Chat.try_get_ai_response cfg api self user_id message = Return (r, self') ->
  r <> [].
Proof.
  unfold Chat.try_get_ai_response. intros ->.
  destruct (fold_left Chat.flatten_step _ _) as [si parts].
  destruct (Chat._gen api cfg si _) as [a|e]; simpl; [|discriminate].
  destruct (truthy a) eqn:E; simpl; [|discriminate].
  intros [= <- _]. now apply truthy_true.
Qed.

(** The store of the cog changes only with an answer, by one append. *)
Lemma get_ai_response_store cfg api self user_id message :
  (Chat._get_ai_response cfg api self user_id message).2 = self
  \/ exists ai_response,
       Chat._get_ai_response cfg api self user_id message
       = (ai_response,
          Chat._update_conversation_history self user_id message ai_response).
Proof.
  unfold Chat._get_ai_response, Chat.try_get_ai_response.
  match goal with
  | |- context [mbind _ ?x] => destruct x as [a|e]
  end; simpl.
  - right. now exists a.
  - now left.
Qed.

Lemma cog_call_fails cfg api self user_id message e :
  call_fails cfg api e ->
  Chat._get_ai_response cfg api self user_id message = (Chat.except e, self).
Proof.
  unfold call_fails, Chat._get_ai_response, Chat.try_get_ai_response.
  destruct (dispatch (Config.ai_provider cfg)); intros H; [| |done].
  - now rewrite H.
  - destruct (fold_left Chat.flatten_step _ _) as [si parts].
    unfold Chat._gen. now rewrite H.
Qed.

Lemma web_call_fails cfg api conversation_history user_id message e :
  call_fails cfg api e ->
  Web.generate_ai_response cfg api conversation_history user_id message
  = Web.unavailable.
Proof.
  unfold call_fails, Web.generate_ai_response, Web.try_generate_ai_response.
  destruct (dispatch (Config.ai_provider cfg)); intros H; [| |done].
  - now rewrite H.
  - destruct (fold_left Web.flatten_step _ _) as [si parts].
    now rewrite H.
Qed.

End Answers.

(** * Runs of the web server's store *)

Section WebRuns.
Import Web.

Lemma get_insert (conversation_history : gmap str (list item)) k v user_id :
  get (<[k := v]> conversation_history) user_id
  = if decide (k = user_id) then v else get conversation_history user_id.
Proof.
  unfold get. destruct (decide (k = user_id)) as [->|Hne].
  - now rewrite lookup_insert_eq.
  - now rewrite lookup_insert_ne.
Qed.

Lemma chat_store_cases cfg api conversation_history req :
  (chat cfg api conversation_history req).2 = conversation_history
  \/ exists message r,
       message <> [] /\ r <> []
       /\ (chat cfg api conversation_history req).2
          = <[get_or (session_user_id req) (lit "anonymous") :=
                get conversation_history
                    (get_or (session_user_id req) (lit "anonymous"))
                ++ [Item user message (now req 0%nat);
                    Item ai r (now req 1%nat)]]>
              conversation_history.
Proof.
  destruct (chat cfg api conversation_history req).1 as [r t| |] eqn:E.
  - right. destruct (chat_ok_history _ _ _ _ _ _ E) as (message & Hm & Hs).
    exists message, r. repeat split; [exact Hm| |exact Hs].
    revert E. unfold chat. destruct (json req) as [data|]; [|discriminate].
    destruct (get_or data _) as [text|]; [|discriminate].
    destruct (truthy (strip text)); simpl; [|discriminate].
    intros [= <- _]. apply generate_nonempty.
  - left. revert E. unfold chat. destruct (json req) as [data|]; [|done].
    destruct (get_or data _) as [text|]; [|done].
    now destruct (truthy (strip text)).
  - left. revert E. unfold chat. destruct (json req) as [data|]; [|done].
    destruct (get_or data _) as [text|]; [|done].
    now destruct (truthy (strip text)).
Qed.

Lemma run_snoc_web cfg ops o : run cfg (ops ++ [o]) = apply cfg (run cfg ops) o.
Proof. unfold run. now rewrite fold_left_app. Qed.

(** Every stored item is the user's or the assistant's, and has a text. *)
Lemma run_items cfg ops user_id :
  Forall (fun i => (item_role i = user \/ item_role i = ai)
                   /\ truthy (item_content i) = true)
         (get (run cfg ops) user_id).
Proof.
  induction ops as [|o ops IH] using rev_ind; [constructor|].
  rewrite run_snoc_web. destruct o as [api req|session]; simpl.
  - destruct (chat_store_cases cfg api (run cfg ops) req)
      as [->|(message & r & Hm & Hr & ->)]; [exact IH|].
    rewrite get_insert. case_decide as Hk; [|exact IH].
    apply Forall_app. split; [now rewrite Hk|].
    repeat constructor; simpl; auto; now apply truthy_true.
  - unfold clear_history, get.
    destruct (decide (get_or session (lit "anonymous") = user_id)) as [->|Hne].
    + rewrite lookup_delete_eq. constructor.
    + rewrite lookup_delete_ne by done. exact IH.
Qed.

Lemma run_prompt cfg ops user_id current_message :
  _build_messages (run cfg ops) user_id current_message
  = Message system system_prompt
    :: map to_message (slice_from (-20) (get (run cfg ops) user_id))
    ++ [Message user current_message].
Proof.
  rewrite build_messages_eq, filter_all; [done|].
  rewrite (slice_from_neg 20) by lia. apply Forall_drop.
  eapply Forall_impl; [apply run_items|]. now intros i [_ H].
Qed.

Lemma run_prompt_no_system cfg ops user_id :
  Forall (fun x => role_of x <> system)
         (map to_message (slice_from (-20) (get (run cfg ops) user_id))).
Proof.
  rewrite Forall_map, (slice_from_neg 20) by lia. apply Forall_drop.
  eapply Forall_impl; [apply run_items|].
  intros i [[H|H] _]; unfold to_message; simpl; rewrite H;
    case_decide; congruence.
Qed.

End WebRuns.

(** * The web server's store under overlapping requests *)

Section Interleaving.
Import Web.

Lemma get_append_item (conversation_history : gmap str (list item)) u i
    user_id :
  get (append_item conversation_history u i) user_id
  = match conversation_history !! u with
    | Some _ =>
        if decide (u = user_id) then get conversation_history user_id ++ [i]
        else get conversation_history user_id
    | None => get conversation_history user_id
    end.
Proof.
  unfold append_item.
  destruct (conversation_history !! u) as [h|] eqn:E; [|done].
  rewrite get_insert. case_decide as Hu; [|done].
  subst. unfold get. now rewrite E.
Qed.

Lemma interleaving_snoc actions a :
  interleaving (actions ++ [a]) = act (interleaving actions) a.
Proof. unfold interleaving. now rewrite fold_left_app. Qed.

(** A property of the items that the two appends establish holds of every
    item of every store. *)
Lemma interleaving_forall (P : item -> Prop) actions user_id :
  (forall text t, truthy (strip text) = true -> P (Item user (strip text) t)) ->
  (forall cfg api seen u message t,
     P (Item ai (generate_ai_response cfg api seen u message) t)) ->
  Forall P (get (interleaving actions) user_id).
Proof.
  intros Huser Hanswer. revert user_id.
  induction actions as [|a actions IH] using rev_ind; intros user_id;
    [constructor|].
  rewrite interleaving_snoc.
  destruct a as [u|u text t|cfg api seen u message t|u]; simpl.
  - rewrite get_insert. case_decide; [constructor|apply IH].
  - destruct (truthy (strip text)) eqn:E; [|apply IH].
    rewrite get_append_item.
    destruct (interleaving actions !! u); [|apply IH].
    case_decide; [|apply IH].
    apply Forall_app. split; [apply IH|].
    constructor; [now apply Huser|constructor].
  - rewrite get_append_item.
    destruct (interleaving actions !! u); [|apply IH].
    case_decide; [|apply IH].
    apply Forall_app. split; [apply IH|].
    constructor; [apply Hanswer|constructor].
  - unfold get. destruct (decide (u = user_id)) as [->|Hne].
    + rewrite lookup_delete_eq. constructor.
    + rewrite lookup_delete_ne by done. apply IH.
Qed.

Lemma interleaving_items actions user_id :
  Forall (fun i => (item_role i = user \/ item_role i = ai)
                   /\ truthy (item_content i) = true)
         (get (interleaving actions) user_id).
Proof.
  apply interleaving_forall.
  - intros text t E. split; [now left|exact E].
  - intros cfg api seen u message t. split; [now right|].
    apply truthy_true, generate_nonempty.
Qed.

Lemma items_prompt (conversation_history : gmap str (list item))
    user_id current_message :
  Forall (fun i => (item_role i = user \/ item_role i = ai)
                   /\ truthy (item_content i) = true)
         (get conversation_history user_id) ->
  _build_messages conversation_history user_id current_message
  = Message system system_prompt
    :: map to_message (slice_from (-20) (get conversation_history user_id))
    ++ [Message user current_message]
  /\ Forall (fun x => role_of x = user \/ role_of x = assistant)
            (map to_message
                 (slice_from (-20) (get conversation_history user_id))).
Proof.
  intros Hitems.
  assert (Hlast : Forall (fun i => (item_role i = user \/ item_role i = ai)
                                   /\ truthy (item_content i) = true)
                         (slice_from (-20) (get conversation_history user_id))).
  { rewrite (slice_from_neg 20) by lia. now apply Forall_drop. }
  split.
  - rewrite build_messages_eq, filter_all; [done|].
    eapply Forall_impl; [exact Hlast|]. now intros i [_ H].
  - rewrite Forall_map. eapply Forall_impl; [exact Hlast|].
    intros i [[H|H] _]; unfold to_message; simpl; rewrite H;
      case_decide; try congruence; auto.
Qed.

Lemma roles_no_system (l : list message) :
  Forall (fun x => role_of x = user \/ role_of x = assistant) l ->
  Forall (fun x => role_of x <> system) l.
Proof.
  intros Hl. eapply Forall_impl; [exact Hl|].
  intros x [H|H]; rewrite H; discriminate.
Qed.

(** What [chat] does with a message that has a text: it builds the prompt
    in the store where the user's item is already, and stores the answer
    behind that item. *)
Lemma chat_answered cfg api conversation_history req text :
  json req = Some (Some (JsonString text)) ->
  strip text <> [] ->
  chat cfg api conversation_history req
  = (Ok200 (generate_ai_response cfg api
              (in_flight conversation_history req text)
              (get_or (session_user_id req) (lit "anonymous")) (strip text))
           (now req 2%nat),
     append_item (in_flight conversation_history req text)
       (get_or (session_user_id req) (lit "anonymous"))
       (Item ai (generate_ai_response cfg api
                   (in_flight conversation_history req text)
                   (get_or (session_user_id req) (lit "anonymous"))
                   (strip text))
                (now req 1%nat))).
Proof.
  intros Hjson Hne. unfold chat. rewrite Hjson. cbn [get_or].
  apply truthy_true in Hne. rewrite Hne. cbn [negb].
  unfold append_item, in_flight.
  now rewrite lookup_insert_eq, get_insert, decide_True.
Qed.

Lemma in_flight_interleaving actions req text :
  strip text <> [] ->
  exists actions',
    in_flight (interleaving actions) req text = interleaving actions'.
Proof.
  intros Hne. apply truthy_true in Hne. unfold in_flight, get.
  set (u := get_or (session_user_id req) (lit "anonymous")).
  destruct (interleaving actions !! u) as [h|] eqn:E; simpl.
  - exists (actions ++ [StoreMessage u text (now req 0%nat)]).
    rewrite interleaving_snoc. simpl. rewrite Hne.
    unfold append_item. now rewrite E.
  - exists ((actions ++ [Create u])
            ++ [StoreMessage u text (now req 0%nat)]).
    rewrite !interleaving_snoc. simpl. rewrite Hne.
    unfold append_item. rewrite lookup_insert_eq.
    now rewrite insert_insert_eq.
Qed.

Lemma chat_interleaving cfg api actions req :
  exists actions',
    (chat cfg api (interleaving actions) req).2 = interleaving actions'.
Proof.
  destruct (json req) as [[[text|]|]|] eqn:Hjson;
    try (exists actions; unfold chat; rewrite Hjson; reflexivity).
  destruct (truthy (strip text)) eqn:E.
  - apply truthy_true in E.
    rewrite (chat_answered _ _ _ _ _ Hjson E). simpl.
    destruct (in_flight_interleaving actions req text E) as [actions' ->].
    eexists (actions' ++ [StoreAnswer cfg api (interleaving actions') _ _ _]).
    rewrite interleaving_snoc. reflexivity.
  - exists actions. unfold chat. rewrite Hjson. simpl. now rewrite E.
Qed.

Lemma run_interleaving cfg ops :
  exists actions, run cfg ops = interleaving actions.
Proof.
  induction ops as [|o ops [actions IH]] using rev_ind; [now exists []|].
  rewrite run_snoc_web, IH. destruct o as [api req|session]; simpl.
  - apply chat_interleaving.
  - exists (actions ++ [Delete (get_or session (lit "anonymous"))]).
    now rewrite interleaving_snoc.
Qed.

End Interleaving.

(** C8. The prompt built for the provider is the system entry, then the
    history of the user in its stored order, then the new message with role
    user; this holds for every history, the empty one included.  The cog
    takes the whole stored history; the web server takes the last 20 stored
    items, with the role [ai] spelled [assistant].  On the stores the program
    can hold the system entry at index 0 is the only system entry.  For the
    web server these are the stores left by the steps of requests that
    overlap in any way, among them the store in which [chat] builds the prompt
    of a request, where the user's item is stored already. *)
Theorem prompt_context_shape :
  (forall self user_id current_message,
     Chat._build_conversation_context self user_id current_message
     = Message system Chat.system_prompt
       :: Chat.history self user_id ++ [Message user current_message])
  /\ (forall ops user_id current_message,
        let context :=
          Chat._build_conversation_context (Chat.run ops) user_id
                                           current_message in
        context !! 0%nat = Some (Message system Chat.system_prompt)
        /\ system_entries context = 1%nat
        /\ last context = Some (Message user current_message))
  /\ (forall cfg ops user_id current_message,
        let context :=
          Web._build_messages (Web.run cfg ops) user_id current_message in
        context
        = Message system Web.system_prompt
          :: map Web.to_message
               (slice_from (-20) (Web.get (Web.run cfg ops) user_id))
          ++ [Message user current_message]
        /\ context !! 0%nat = Some (Message system Web.system_prompt)
        /\ system_entries context = 1%nat
        /\ last context = Some (Message user current_message))
  /\ (forall conversation_history user_id current_message,
        let context :=
          Web._build_messages conversation_history user_id current_message in
        context
        = Message system Web.system_prompt
          :: map Web.to_message
               (filter (fun i => truthy (Web.item_content i) = true)
                       (slice_from (-20)
                                   (Web.get conversation_history user_id)))
          ++ [Message user current_message]
        /\ context !! 0%nat = Some (Message system Web.system_prompt)
        /\ last context = Some (Message user current_message))
  /\ (forall actions user_id current_message,
        let context :=
          Web._build_messages (Web.interleaving actions) user_id
                              current_message in
        context
        = Message system Web.system_prompt
          :: map Web.to_message
               (slice_from (-20) (Web.get (Web.interleaving actions) user_id))
          ++ [Message user current_message]
        /\ context !! 0%nat = Some (Message system Web.system_prompt)
        /\ system_entries context = 1%nat
        /\ last context = Some (Message user current_message))
  /\ (forall cfg api actions req text,
        Web.json req = Some (Some (Web.JsonString text)) ->
        strip text <> [] ->
        let user_id := get_or (Web.session_user_id req) (lit "anonymous") in
        let stored := Web.in_flight (Web.interleaving actions) req text in
        (Web.chat cfg api (Web.interleaving actions) req).1
        = Web.Ok200
            (match Web.try_generate_ai_response cfg api
                     (Web._build_messages stored user_id (strip text)) with
             | Return answer => answer
             | Raise _ => Web.unavailable
             end)
            (Web.now req 2%nat)
        /\ (exists actions', stored = Web.interleaving actions')
        /\ Web._build_messages stored user_id (strip text)
           = Message system Web.system_prompt
             :: map Web.to_message
                  (slice_from (-20)
                     (Web.get (Web.interleaving actions) user_id
                      ++ [Web.Item user (strip text) (Web.now req 0%nat)]))
             ++ [Message user (strip text)]
        /\ system_entries (Web._build_messages stored user_id (strip text))
           = 1%nat)
  /\ (forall cfg ops, exists actions, Web.run cfg ops = Web.interleaving actions).
Proof.
  split; [|split; [|split; [|split; [|split; [|split]]]]].
  - apply build_context_eq.
  - intros ops user_id m. cbv zeta. rewrite build_context_eq.
    split; [done|]. split; [|apply last_framed].
    apply system_entries_framed, turns_no_system, run_turns.
  - intros cfg ops user_id m. cbv zeta. rewrite run_prompt.
    split; [done|]. split; [done|]. split; [|apply last_framed].
    apply system_entries_framed, run_prompt_no_system.
  - intros ch user_id m. cbv zeta. rewrite build_messages_eq.
    split; [done|]. split; [done|apply last_framed].
  - intros actions user_id m. cbv zeta.
    destruct (items_prompt (Web.interleaving actions) user_id m
                (interleaving_items actions user_id)) as [-> Hroles].
    split; [done|]. split; [done|]. split; [|apply last_framed].
    apply system_entries_framed, roles_no_system, Hroles.
  - intros cfg api actions req text Hjson Hne. cbv zeta.
    split; [now rewrite (chat_answered _ _ _ _ _ Hjson Hne)|].
    destruct (in_flight_interleaving actions req text Hne) as [actions' Hs].
    split; [now exists actions'|].
    destruct (items_prompt (Web.in_flight (Web.interleaving actions) req text)
                (get_or (Web.session_user_id req) (lit "anonymous"))
                (strip text)) as [Heq Hroles].
    { rewrite Hs. apply interleaving_items. }
    assert (Hget : Web.get (Web.in_flight (Web.interleaving actions) req text)
                           (get_or (Web.session_user_id req) (lit "anonymous"))
                   = Web.get (Web.interleaving actions)
                             (get_or (Web.session_user_id req)
                                     (lit "anonymous"))
                     ++ [Web.Item user (strip text) (Web.now req 0%nat)]).
    { unfold Web.in_flight. now rewrite get_insert, decide_True. }
    rewrite Hget in Heq, Hroles. split; [exact Heq|].
    rewrite Heq. apply system_entries_framed, roles_no_system, Hroles.
  - apply run_interleaving.
Qed.

Lemma prompt_context_shape_witness :
  Web.json (post (lit "hi")) = Some (Some (Web.JsonString (lit "hi")))
  /\ strip (lit "hi") <> []
  /\ Web._build_messages
       (Web.in_flight (Web.interleaving []) (post (lit "hi")) (lit "hi"))
       (lit "anonymous") (lit "hi")
     = [Message system Web.system_prompt;
        Message user (lit "hi"); Message user (lit "hi")].
Proof.
  assert (H1 : Web.json (post (lit "hi"))
               = Some (Some (Web.JsonString (lit "hi")))) by reflexivity.
  assert (H2 : strip (lit "hi") <> []) by discriminate.
  split; [exact H1|]. split; [exact H2|].
  destruct prompt_context_shape as (_ & _ & _ & _ & _ & H & _).
  destruct (H openai_config (answering None) [] (post (lit "hi")) (lit "hi")
              H1 H2) as (_ & _ & Heq & _).
  exact Heq.
Defined.

(** C2, as stated, fails in the web server: the user's message is stored
    before the provider is called, and the text returned for the failure is
    stored as the answer. *)
Lemma web_failed_call_is_recorded :
  Web.chat openai_config (failing RateLimitError) ∅ (post (lit "hi"))
  = (Web.Ok200 Web.unavailable (lit "2024-01-01T00:00:00"),
     {[ lit "anonymous" :=
          [Web.Item user (lit "hi") (lit "2024-01-01T00:00:00");
           Web.Item ai Web.unavailable (lit "2024-01-01T00:00:00")] ]})
  /\ (Web.chat openai_config (failing RateLimitError) ∅ (post (lit "hi"))).2
     <> ∅.
Proof.
  assert (E : Web.chat openai_config (failing RateLimitError) ∅
                       (post (lit "hi"))
              = (Web.Ok200 Web.unavailable (lit "2024-01-01T00:00:00"),
                 {[ lit "anonymous" :=
                      [Web.Item user (lit "hi") (lit "2024-01-01T00:00:00");
                       Web.Item ai Web.unavailable
                                (lit "2024-01-01T00:00:00")] ]})).
  { unfold Web.chat. simpl.
    rewrite (web_call_fails _ _ _ _ _ RateLimitError) by (now intros ? ?).
    rewrite insert_insert_eq. reflexivity. }
  split; [exact E|]. rewrite E. simpl. apply insert_non_empty.
Qed.

(** C2, amended. In the cog, when the call of the configured provider
    raises, [_get_ai_response] returns the message of the matching handler
    and leaves the store as it was.  The web server keeps a transcript
    instead: it stores the user's message, and then the text
    [generate_ai_response] returns for the failure. *)
Theorem failed_call_not_recorded_by_cog
    (cfg : Config.t) (api : Provider.sdk) (e : exn) :
  call_fails cfg api e ->
  (forall self user_id message,
     Chat._get_ai_response cfg api self user_id message
     = (Chat.except e, self))
  /\ (forall conversation_history req message,
        Web.json req = Some (Some (Web.JsonString message)) ->
        strip message <> [] ->
        Web.chat cfg api conversation_history req
        = (Web.Ok200 Web.unavailable (Web.now req 2%nat),
           <[get_or (Web.session_user_id req) (lit "anonymous") :=
               Web.get conversation_history
                       (get_or (Web.session_user_id req) (lit "anonymous"))
               ++ [Web.Item user (strip message) (Web.now req 0%nat);
                   Web.Item ai Web.unavailable (Web.now req 1%nat)]]>
             conversation_history)).
Proof.
  intros Hfail. split.
  - intros self user_id message. now apply cog_call_fails.
  - intros ch req message Hjson Hne. unfold Web.chat. rewrite Hjson. simpl.
    apply truthy_true in Hne. rewrite Hne. simpl.
    rewrite (web_call_fails _ _ _ _ _ e Hfail).
    rewrite get_insert, decide_True by done.
    now rewrite insert_insert_eq, <- app_assoc.
Qed.

Lemma failed_call_not_recorded_by_cog_witness :
  call_fails openai_config (failing RateLimitError) RateLimitError
  /\ Chat._get_ai_response openai_config (failing RateLimitError)
                           Chat.__init__ 7 (lit "hi")
     = (lit "I'm experiencing high traffic right now. Please try again in a moment.",
        Chat.__init__).
Proof.
  assert (H : call_fails openai_config (failing RateLimitError) RateLimitError)
    by (now intros ? ?).
  split; [exact H|].
  apply (failed_call_not_recorded_by_cog _ _ _ H).
Defined.

(** C3 fails in the OpenAI branch of the cog, which strips the answer and
    does not test it: an answer of blanks is returned as the empty string
    and recorded as the assistant's turn. *)
Theorem cog_openai_records_empty_answer :
  Chat._get_ai_response openai_config (answering (Some (lit "   ")))
                        Chat.__init__ 7 (lit "hi")
  = ([], Chat._update_conversation_history Chat.__init__ 7 (lit "hi") [])
  /\ Chat.history
       (Chat._get_ai_response openai_config (answering (Some (lit "   ")))
                              Chat.__init__ 7 (lit "hi")).2 7
     = [Message user (lit "hi"); Message assistant []].
Proof. split; reflexivity. Qed.

(** * Configuration *)

Section Configuration.
Import Config Provider.

Lemma dispatch_openai : dispatch (lit "openai") = OpenAI.
Proof. reflexivity. Qed.

Lemma dispatch_gemini : dispatch (lit "gemini") = Gemini.
Proof. reflexivity. Qed.

Lemma openai_ne_gemini : lit "openai" <> lit "gemini".
Proof. discriminate. Qed.

(** What [_validate_config] returns, when it returns. *)
Lemma validate_config_return self cfg :
  _validate_config self = Return cfg ->
  ai_provider cfg
  = (if decide (ai_provider self = lit "gemini")
     then lit "gemini" else lit "openai")
  /\ match dispatch (ai_provider cfg) with
     | OpenAI =>
         openai_model cfg
         = (if decide (openai_model self ∈ valid_openai_models)
            then openai_model self else lit "gpt-4o-mini")
         /\ gemini_model cfg = gemini_model self
     | Gemini =>
         gemini_model cfg
         = (if decide (gemini_model self ∈ valid_gemini_models)
            then gemini_model self else lit "gemini-1.5-flash")
         /\ openai_model cfg = openai_model self
     | Unsupported => False
     end.
Proof.
  unfold _validate_config.
  destruct (unset (discord_token self)); [discriminate|].
  destruct (decide (ai_provider self ∈ [lit "openai"; lit "gemini"]))
    as [Hin|Hout].
  - destruct (decide (ai_provider self = lit "openai")) as [Ho|Hno].
    + destruct (unset (openai_api_key self)); [discriminate|].
      intros [= <-]. rewrite (decide_False (P := _ = lit "gemini"))
        by (rewrite Ho; exact openai_ne_gemini).
      destruct (decide (openai_model self ∈ valid_openai_models));
        simpl; now rewrite Ho, dispatch_openai.
    + destruct (decide (ai_provider self = lit "gemini")) as [Hg|Hng].
      * destruct (unset (gemini_api_key self)); [discriminate|].
        intros [= <-].
        destruct (decide (gemini_model self ∈ valid_gemini_models));
          simpl; now rewrite Hg, dispatch_gemini.
      * exfalso. apply list_elem_of_In in Hin.
        destruct Hin as [Ho|[Hg|[]]]; congruence.
  - cbn [ai_provider with_provider openai_api_key openai_model].
    rewrite (decide_True (P := lit "openai" = lit "openai")) by done.
    destruct (unset (openai_api_key self)); [discriminate|].
    intros [= <-].
    assert (Hng : ai_provider self <> lit "gemini")
      by (intros E; apply Hout; rewrite E; set_solver).
    rewrite (decide_False (P := _ = lit "gemini")) by exact Hng.
    now destruct (decide (openai_model self ∈ valid_openai_models)).
Qed.

End Configuration.



(** * Examples *)

(** The separator is consumed whole; a trailing one leaves an empty piece. *)
Example split_sentences_ex :
  split_sentences (lit "A. B.  C. ") = [lit "A."; lit "B."; lit "C."; lit ""]
  /\ split_sentences (lit " . ! x?. ") = [lit " ."; lit "!"; lit "x?."; lit ""]
  /\ split_sentences (lit "  ") = [lit "  "]
  /\ split_sentences (lit "") = [lit ""]
  /\ split_sentences (lit ". a") = [lit "."; lit "a"]
  /\ split_sentences (lit "e.g. 3.5?!" ++ [ascii_of_N 10] ++ lit "ok")
     = [lit "e.g."; lit "3.5?!"; lit "ok"].
Proof. repeat split; reflexivity. Qed.

Example strip_ex :
  strip (lit "  a b " ++ [ascii_of_N 9]) = lit "a b" /\ strip (lit "   ") = [].
Proof. split; reflexivity. Qed.

Example normalize_ex :
  normalize (lit " a" ++ [ascii_of_N 9] ++ lit "b  c ") = lit "a b c".
Proof. reflexivity. Qed.

Example lower_ex : lower (lit "GeMiNi") = lit "gemini".
Proof. reflexivity. Qed.

Example slice_from_ex :
  slice_from (-2) [1; 2; 3] = [2; 3] /\ slice_from (-5) [1; 2; 3] = [1; 2; 3]
  /\ slice_from 0 [1; 2; 3] = [1; 2; 3].
Proof. repeat split; reflexivity. Qed.

(** The provider is read without regard to case; an unknown one falls back
    to OpenAI, whose key is then required. *)
Example config_gemini_upper_case :
  Config.__init__
    {| Config.DISCORD_TOKEN := Some (lit "token");
       Config.AI_PROVIDER := Some (lit "GEMINI");
       Config.OPENAI_API_KEY := None;
       Config.OPENAI_MODEL := None;
       Config.GEMINI_API_KEY := Some (lit "key");
       Config.GEMINI_MODEL := Some (lit "gemini-ultra") |}
  = Return gemini_config.
Proof. vm_compute. reflexivity. Qed.

Example config_unknown_provider :
  Config.__init__
    {| Config.DISCORD_TOKEN := Some (lit "token");
       Config.AI_PROVIDER := Some (lit "claude");
       Config.OPENAI_API_KEY := Some (lit "key");
       Config.OPENAI_MODEL := Some (lit "gpt-5");
       Config.GEMINI_API_KEY := None;
       Config.GEMINI_MODEL := None |}
  = Return openai_config
  /\ Config.__init__
       {| Config.DISCORD_TOKEN := Some (lit "token");
          Config.AI_PROVIDER := Some (lit "claude");
          Config.OPENAI_API_KEY := None;
          Config.OPENAI_MODEL := None;
          Config.GEMINI_API_KEY := Some (lit "key");
          Config.GEMINI_MODEL := None |}
     = Raise (ValueError
                (lit "OPENAI_API_KEY is required for AI_PROVIDER=openai")).
Proof. split; vm_compute; reflexivity. Qed.

(** An answered exchange is returned stripped and recorded as one turn. *)
Example cog_answer_recorded :
  Chat._get_ai_response openai_config (answering (Some (lit " Hello! ")))
                        Chat.__init__ 7 (lit "hi")
  = (lit "Hello!",
     Chat._update_conversation_history Chat.__init__ 7 (lit "hi")
                                       (lit "Hello!"))
  /\ Chat.history
       (Chat._get_ai_response openai_config (answering (Some (lit " Hello! ")))
                              Chat.__init__ 7 (lit "hi")).2 7
     = [Message user (lit "hi"); Message assistant (lit "Hello!")].
Proof. split; reflexivity. Qed.

(** The Gemini branch of the cog and both branches of the web server refuse
    an answer of blanks. *)
Example blank_answer_refused_elsewhere :
  Chat._get_ai_response gemini_config (answering (Some (lit "   ")))
                        Chat.__init__ 7 (lit "hi")
  = (lit "An unexpected error occurred. Please try again later.",
     Chat.__init__)
  /\ Web.generate_ai_response openai_config (answering (Some (lit "   ")))
                              ∅ (lit "anonymous") (lit "hi")
     = Web.unavailable
  /\ Web.generate_ai_response gemini_config (answering (Some (lit "   ")))
                              ∅ (lit "anonymous") (lit "hi")
     = Web.unavailable.
Proof. repeat split; reflexivity. Qed.

(** A sentence longer than the limit is one chunk, whatever its length. *)
Example long_sentence_not_split :
  Chat._format_response Chat.__init__ (times (lit "a") 2001)
  = [times (lit "a") 2001].
Proof. vm_compute. reflexivity. Qed.

(** The guard of the last part tests the part before stripping it: a
    sentence of 2000 characters followed by a blank leaves an empty chunk. *)
Example trailing_blank_leaves_empty_chunk :
  Chat._format_response Chat.__init__
    (times (lit "a") 1999 ++ lit "." ++ lit " ")
  = [times (lit "a") 1999 ++ lit "."; []].
Proof. vm_compute. reflexivity. Qed.

(** * More on the response chunker *)

Section Visible.

Lemma visible_app s t : visible (s ++ t) = visible s ++ visible t.
Proof. apply filter_app. Qed.

Lemma visible_space c s : is_space c = true -> visible (c :: s) = visible s.
Proof.
  intros Hc. unfold visible. rewrite filter_cons.
  destruct (decide (is_space c = false)); [congruence|reflexivity].
Qed.

Lemma visible_nonspace c s :
  is_space c = false -> visible (c :: s) = c :: visible s.
Proof.
  intros Hc. unfold visible. rewrite filter_cons.
  destruct (decide (is_space c = false)); [reflexivity|congruence].
Qed.

Lemma visible_lstrip s : visible (lstrip s) = visible s.
Proof.
  induction s as [|c s IH]; simpl; [done|].
  destruct (is_space c) eqn:E; [|done]. now rewrite visible_space.
Qed.

Lemma visible_rstrip s : visible (rstrip s) = visible s.
Proof.
  induction s as [|c s IH]; simpl; [done|].
  destruct (is_space c) eqn:E.
  - rewrite (visible_space c s E).
    destruct (rstrip s) as [|r rs]; [exact IH|].
    now rewrite visible_space.
  - rewrite (visible_nonspace c s E), <- IH.
    destruct (rstrip s) as [|r rs]; now rewrite visible_nonspace.
Qed.

Lemma visible_strip s : visible (strip s) = visible s.
Proof. unfold strip. now rewrite visible_rstrip, visible_lstrip. Qed.

Lemma visible_blank s : visible (s ++ lit " ") = visible s.
Proof. rewrite visible_app. apply app_nil_r. Qed.

Lemma concat_push c pieces : concat (push c pieces) = c :: concat pieces.
Proof. now destruct pieces. Qed.

(** The split removes white space only. *)
Lemma visible_split_from st s : visible (concat (split_from st s)) = visible s.
Proof.
  revert st. induction s as [|c s IH]; intros st; [done|].
  cbn [split_from]. destruct (is_space c) eqn:E.
  - rewrite (visible_space c s E).
    destruct st; [|apply IH..].
    rewrite concat_push, visible_space by done. apply IH.
  - rewrite (visible_nonspace c s E).
    destruct st; rewrite concat_push, visible_nonspace by done;
      now rewrite IH.
Qed.

Lemma space_not_terminator c : is_space c = true -> is_terminator c = false.
Proof.
  destruct c as [[] [] [] [] [] [] [] []]; vm_compute; congruence.
Qed.

(** The first piece of a split has a visible character, unless the split
    found no separator at all. *)
Lemma split_first s :
  exists p rest,
    split_sentences s = p :: rest
    /\ (has_nonspace p \/ (rest = [] /\ p = s)).
Proof.
  unfold split_sentences. induction s as [|c s (p & rest & Hsplit & IH)].
  - exists [], []. split; [done|]. now right.
  - cbn [split_from]. destruct (is_space c) eqn:E.
    + unfold after. rewrite (space_not_terminator c E), Hsplit.
      exists (c :: p), rest. split; [done|].
      destruct IH as [IH|[-> ->]]; [left; now constructor 2|now right].
    + destruct (split_from (after c) s) as [|p' rest'].
      * exists [c], []. split; [done|]. left. now constructor.
      * exists (c :: p'), rest'. split; [done|]. left. now constructor.
Qed.

End Visible.

Section FormatMore.
Import Chat.

Variable self : ChatCog.

Lemma format_fold_visible sentences parts current_part :
  visible
    (concat
       (let '(parts', current_part') :=
          fold_left (format_step self) sentences (parts, current_part) in
        if truthy current_part' then parts' ++ [strip current_part']
        else parts'))
  = visible (concat parts) ++ visible current_part
    ++ visible (concat sentences).
Proof.
  revert parts current_part.
  induction sentences as [|s sentences IH]; intros parts cur.
  - simpl. rewrite app_nil_r. destruct cur as [|c cur]; simpl.
    + now rewrite app_nil_r.
    + rewrite concat_app, visible_app. simpl.
      now rewrite app_nil_r, visible_strip.
  - cbn [fold_left concat]. unfold format_step at 2.
    destruct (len cur + len s + 1 <=? max_message_length self).
    + rewrite IH, !visible_app, visible_strip, visible_blank.
      now rewrite <- !app_assoc.
    + rewrite IH, visible_blank, visible_app. rewrite !app_assoc.
      do 2 f_equal. destruct cur as [|c cur]; simpl.
      * now rewrite app_nil_r.
      * rewrite concat_app, visible_app. simpl.
        now rewrite app_nil_r, visible_strip.
Qed.

(** Once a part was closed or the open part has a character, the loop ends
    with at least one chunk. *)
Lemma format_fold_live sentences parts current_part :
  parts <> [] \/ current_part <> [] ->
  (let '(parts', current_part') :=
     fold_left (format_step self) sentences (parts, current_part) in
   if truthy current_part' then parts' ++ [strip current_part']
   else parts') <> [].
Proof.
  revert parts current_part.
  induction sentences as [|s sentences IH]; intros parts cur Hlive.
  - simpl. destruct cur as [|c cur]; simpl.
    + now destruct Hlive.
    + now destruct parts.
  - cbn [fold_left]. unfold format_step at 2.
    destruct (len cur + len s + 1 <=? max_message_length self).
    + apply IH. destruct Hlive as [H|H]; [now left|right].
      now destruct cur.
    + apply IH. right. now destruct s.
Qed.

End FormatMore.

(** X1. The chunks put together have the characters of the response that
    are not white space, all of them and in the same order: the chunker
    loses, repeats and moves nothing but white space. *)
Theorem format_response_keeps_visible (self : Chat.ChatCog) (response : str) :
  visible (concat (Chat._format_response self response)) = visible response.
Proof.
  unfold Chat._format_response.
  destruct (len response <=? Chat.max_message_length self).
  - simpl. now rewrite app_nil_r.
  - pose proof (format_fold_visible self (split_sentences response) [] [])
      as H.
    destruct (fold_left (Chat.format_step self) (split_sentences response)
                        ([], [])) as [parts current_part].
    rewrite H. simpl. apply visible_split_from.
Qed.

(** X2. The chunker never returns the empty list: there is always a first
    part for [chat_command] to send. *)
Theorem format_response_has_first_part (self : Chat.ChatCog) (response : str) :
  exists part parts, Chat._format_response self response = part :: parts.
Proof.
  assert (H : Chat._format_response self response <> []).
  { unfold Chat._format_response.
    destruct (Z.leb_spec (len response) (Chat.max_message_length self))
      as [Hshort|Hlong]; [done|].
    destruct (split_first response) as (p & rest & -> & Hp).
    cbn [fold_left]. unfold Chat.format_step at 2.
    destruct (Z.leb_spec (len (@nil ascii) + len p + 1)
                         (Chat.max_message_length self)) as [Hfit|Hnofit];
      apply format_fold_live; right.
    - destruct Hp as [Hp|[_ ->]].
      + simpl. rewrite strip_app_space. now apply strip_nonempty.
      + unfold len in Hfit, Hlong. simpl in Hfit. lia.
    - now destruct p. }
  destruct (Chat._format_response self response) as [|part parts]; [done|].
  now exists part, parts.
Qed.

(** * More on the store of the cog and on its commands *)

Section CogMore.
Import Chat Provider.

(** What the provider branch of the cog returns has no white space around
    it, and it is recorded as it is returned. *)
Lemma try_get_ai_response_return cfg api self user_id message r self' :
  try_get_ai_response cfg api self user_id message = Return (r, self') ->
  trimmed r
  /\ self' = _update_conversation_history self user_id message r.
Proof.
  unfold try_get_ai_response.
  destruct (dispatch (Config.ai_provider cfg)); [| |discriminate].
  - destruct (chat_completions_create api _ _) as [resp|e];
      simpl; [|discriminate].
    destruct (choices resp) as [|[c|] cs]; simpl; try discriminate.
    intros [= <- <-]. split; [apply strip_trimmed|done].
  - destruct (fold_left flatten_step _ _) as [si parts].
    unfold _gen.
    destruct (generate_content api _ _ _) as [g|e]; simpl; [|discriminate].
    destruct (getattr_text g) as [t|e]; simpl; [|discriminate].
    destruct (truthy (strip (or_else t []))) eqn:E; simpl.
    + rewrite E. simpl. intros [= <- <-]. split; [apply strip_trimmed|done].
    + destruct (candidates g) as [[|cand cands]|]; simpl; try discriminate.
      match goal with
      | |- (if truthy ?t then _ else _) ≫= _ = _ -> _ =>
          destruct (truthy t); simpl; [|discriminate]
      end.
      intros [= <- <-]. split; [apply strip_trimmed|done].
Qed.

Lemma get_ai_response_cases cfg api self user_id message :
  (_get_ai_response cfg api self user_id message).2 = self
  \/ exists r,
       trimmed r
       /\ (_get_ai_response cfg api self user_id message).2
          = _update_conversation_history self user_id message r.
Proof.
  unfold _get_ai_response.
  destruct (try_get_ai_response cfg api self user_id message)
    as [[r self']|e] eqn:E; [|now left].
  apply try_get_ai_response_return in E as [Ht ->].
  right. now exists r.
Qed.

Lemma chat_command_store d cfg api self user_id message :
  (Cog.chat_command d cfg api self user_id message).2
  = if Cog.defer_ok d
    then (_get_ai_response cfg api self user_id message).2
    else self.
Proof.
  unfold Cog.chat_command. destruct (Cog.defer_ok d); [|done].
  destruct (_get_ai_response cfg api self user_id message) as [r self'].
  now destruct (Cog.deliver d _).
Qed.

Lemma chat_command_cases d cfg api self user_id message :
  (Cog.chat_command d cfg api self user_id message).2 = self
  \/ exists r,
       trimmed r
       /\ (Cog.chat_command d cfg api self user_id message).2
          = _update_conversation_history self user_id message r.
Proof.
  rewrite chat_command_store. destruct (Cog.defer_ok d); [|now left].
  apply get_ai_response_cases.
Qed.

Lemma run_commands_snoc cfg commands c :
  Cog.run_commands cfg (commands ++ [c])
  = Cog.exec cfg (Cog.run_commands cfg commands) c.
Proof. unfold Cog.run_commands. now rewrite fold_left_app. Qed.

Lemma run_commands_ops cfg commands :
  exists ops, Cog.run_commands cfg commands = run ops.
Proof.
  induction commands as [|c commands [ops IH]] using rev_ind;
    [now exists []|].
  rewrite run_commands_snoc, IH. destruct c as [d api u m|u]; simpl.
  - destruct (chat_command_cases d cfg api (run ops) u m)
      as [->|(r & _ & ->)].
    + now exists ops.
    + exists (ops ++ [Exchange u m r]). now rewrite run_snoc.
  - exists (ops ++ [Clear u]). now rewrite run_snoc.
Qed.

Lemma update_history_trimmed self user_id message r other :
  trimmed r ->
  Forall (fun m => role_of m = assistant -> trimmed (content m))
         (history self other) ->
  Forall (fun m => role_of m = assistant -> trimmed (content m))
         (history (_update_conversation_history self user_id message r)
                  other).
Proof.
  intros Hr Hold. destruct (decide (other = user_id)) as [->|Hne].
  - rewrite update_history. cbv zeta.
    assert (Hnew : Forall
                     (fun m => role_of m = assistant -> trimmed (content m))
                     (history self user_id
                      ++ [Message user message; Message assistant r])).
    { apply Forall_app. split; [exact Hold|].
      apply Forall_cons. split; [simpl; discriminate|].
      apply Forall_cons. split; [now intros _|constructor]. }
    destruct (len _ >? _); [|exact Hnew].
    unfold slice_from. now apply Forall_drop.
  - now rewrite update_history_other.
Qed.

Lemma run_commands_trimmed cfg commands user_id :
  Forall (fun m => role_of m = assistant -> trimmed (content m))
         (history (Cog.run_commands cfg commands) user_id).
Proof.
  induction commands as [|c commands IH] using rev_ind; [constructor|].
  rewrite run_commands_snoc. destruct c as [d api u m|u]; simpl.
  - destruct (chat_command_cases d cfg api (Cog.run_commands cfg commands)
                                 u m) as [->|(r & Hr & ->)]; [exact IH|].
    now apply update_history_trimmed.
  - destruct (decide (user_id = u)) as [->|Hne].
    + rewrite clear_history_eq. constructor.
    + now rewrite clear_history_other.
Qed.



End CogMore.

(** X3. [/clear] empties the history of the user and of nobody else; it
    reports a deletion exactly when the user had a history, and without one it
    changes nothing. *)
Theorem cog_clear_command (self : Chat.ChatCog) (user_id : Z) :
  Chat.history (Chat.clear_command self user_id).2 user_id = []
  /\ (forall other,
        other <> user_id ->
        Chat.history (Chat.clear_command self user_id).2 other
        = Chat.history self other)
  /\ ((Chat.clear_command self user_id).1 = true
      <-> is_Some (Chat.conversation_history self !! user_id))
  /\ ((Chat.clear_command self user_id).1 = false ->
      (Chat.clear_command self user_id).2 = self).
Proof.
  split; [apply clear_history_eq|].
  split; [intros other; apply clear_history_other|].
  unfold Chat.clear_command.
  destruct (Chat.conversation_history self !! user_id) eqn:E; simpl.
  - split; [|discriminate]. split; [eauto|done].
  - split; [|done]. split; [discriminate|]. now intros [x Hx].
Qed.

(** X4. Appends for two different users do not touch each other: done in
    either order they leave the same store. *)
Theorem cog_appends_commute (self : Chat.ChatCog)
    (u1 u2 : Z) (m1 r1 m2 r2 : str) :
  u1 <> u2 ->
  Chat._update_conversation_history
    (Chat._update_conversation_history self u1 m1 r1) u2 m2 r2
  = Chat._update_conversation_history
      (Chat._update_conversation_history self u2 m2 r2) u1 m1 r1.
Proof.
  intros Hne. unfold Chat._update_conversation_history. simpl.
  rewrite !lookup_insert_ne by done.
  unfold Chat.set_conversation_history. simpl. f_equal.
  now apply insert_insert_ne.
Qed.

Lemma cog_appends_commute_witness :
  (1 : Z) <> 2
  /\ Chat._update_conversation_history
       (Chat._update_conversation_history Chat.__init__ 1 (lit "a") (lit "b"))
       2 (lit "c") (lit "d")
     = Chat._update_conversation_history
         (Chat._update_conversation_history Chat.__init__ 2 (lit "c")
                                            (lit "d"))
         1 (lit "a") (lit "b").
Proof.
  assert (H : (1 : Z) <> 2) by lia.
  split; [exact H|]. now apply cog_appends_commute.
Defined.

(** X5. Whatever the slash commands do, with any provider and any
    behaviour of Discord, the store they leave is one that appends and clears
    produce: no history is longer than 20 entries and each is made of whole
    turns. *)
Theorem cog_commands_keep_store_bounded
    (cfg : Config.t) (commands : list Cog.command) (user_id : Z) :
  (exists ops, Cog.run_commands cfg commands = Chat.run ops)
  /\ (length (Chat.history (Cog.run_commands cfg commands) user_id) <= 20)%nat
  /\ Chat.turns (Chat.history (Cog.run_commands cfg commands) user_id).
Proof.
  destruct (run_commands_ops cfg commands) as [ops Hops].
  split; [now exists ops|]. rewrite Hops.
  split; [|apply run_turns].
  rewrite run_history, length_drop. lia.
Qed.

(** X6. Every answer the cog has recorded is free of surrounding white
    space, whichever provider gave it. *)
Theorem cog_recorded_answers_trimmed
    (cfg : Config.t) (commands : list Cog.command) (user_id : Z) :
  Forall (fun m => role_of m = assistant -> trimmed (content m))
         (Chat.history (Cog.run_commands cfg commands) user_id).
Proof. apply run_commands_trimmed. Qed.


(** * The Gemini call of the cog and the delivery of an answer *)

Section Delivery.
Import Chat Provider Cog.

Lemma sends_several part part' parts :
  sends (part :: part' :: parts)
  = Followup part :: map ChannelSend (part' :: parts)
    ++ [Followup split_notice].
Proof.
  unfold sends. rewrite imap_cons. cbn [app]. do 2 f_equal.
  rewrite <- (imap_const ChannelSend). now apply imap_ext.
Qed.

Lemma deliver_all d plan :
  Forall (fun m => accepts d m = true) plan -> deliver d plan = (plan, true).
Proof.
  induction 1 as [|m plan Hm Hplan IH]; [done|].
  simpl. now rewrite Hm, IH.
Qed.

(** What was delivered is the beginning of what was to be sent, and the
    body came to its end exactly when that is all of it. *)
Lemma deliver_take d plan :
  exists n,
    (n <= length plan)%nat
    /\ deliver d plan = (take n plan, bool_decide (n = length plan)).
Proof.
  induction plan as [|m plan (n & Hn & IH)].
  - now exists 0%nat.
  - simpl. destruct (accepts d m).
    + exists (S n). split; [simpl; lia|]. rewrite IH. simpl. f_equal.
      apply bool_decide_ext. lia.
    + exists 0%nat. split; [lia|]. simpl. f_equal.
Qed.

Lemma sends_within_limit parts :
  Forall (fun part => 1 <= len part <= 2000) parts ->
  Forall (fun m => within_limit m = true) (sends parts).
Proof.
  intros Hparts.
  assert (Hin : forall part, 1 <= len part <= 2000 ->
                  within_limit (Followup part) = true
                  /\ within_limit (ChannelSend part) = true).
  { intros p Hp. simpl.
    destruct (Z.leb_spec 1 (len p)); [|lia].
    destruct (Z.leb_spec (len p) 2000); [|lia]. done. }
  destruct parts as [|part [|part' rest]].
  - now repeat constructor.
  - apply Forall_cons in Hparts as [H _]. constructor; [|constructor].
    now apply Hin.
  - rewrite sends_several. apply Forall_cons in Hparts as [H Hrest].
    constructor; [now apply Hin|].
    apply Forall_app. split; [|now repeat constructor].
    apply Forall_map. eapply Forall_impl; [exact Hrest|].
    intros p Hp. now apply Hin.
Qed.

Lemma except_length e : 1 <= len (Chat.except e) <= 2000.
Proof. destruct e; split; now vm_compute. Qed.

End Delivery.

(** X8. [_gen] returns the stripped text of the result when reading the
    text gives one with a visible character, whatever the candidates are; what
    it returns never has white space around it.  It raises when the call of
    the SDK raises, and when reading the text of the result raises anything
    but an [AttributeError]: the candidates are not looked at then.  When
    reading the text gives nothing usable and there are no candidates, the
    empty string comes back. *)
Theorem gen_result (api : Provider.sdk) (cfg : Config.t)
    (system_instructions prompt : str) :
  (forall r, Chat._gen api cfg system_instructions prompt = Return r ->
             trimmed r)
  /\ (forall e,
        Chat._gen api cfg system_instructions prompt = Raise e ->
        Provider.generate_content api (Config.gemini_model cfg)
          (if truthy system_instructions then Some system_instructions
           else None) prompt
        = Raise e
        \/ exists g,
             Provider.generate_content api (Config.gemini_model cfg)
               (if truthy system_instructions then Some system_instructions
                else None) prompt
             = Return g
             /\ Provider.text g = Raise e /\ e <> AttributeError)
  /\ (forall e,
        Provider.generate_content api (Config.gemini_model cfg)
          (if truthy system_instructions then Some system_instructions
           else None) prompt
        = Raise e ->
        Chat._gen api cfg system_instructions prompt = Raise e)
  /\ (forall g e,
        Provider.generate_content api (Config.gemini_model cfg)
          (if truthy system_instructions then Some system_instructions
           else None) prompt
        = Return g ->
        Provider.text g = Raise e ->
        e <> AttributeError ->
        Chat._gen api cfg system_instructions prompt = Raise e)
  /\ (forall g t,
        Provider.generate_content api (Config.gemini_model cfg)
          (if truthy system_instructions then Some system_instructions
           else None) prompt
        = Return g ->
        Provider.text g = Return (Some t) ->
        has_nonspace t ->
        Chat._gen api cfg system_instructions prompt = Return (strip t))
  /\ (forall g t,
        Provider.generate_content api (Config.gemini_model cfg)
          (if truthy system_instructions then Some system_instructions
           else None) prompt
        = Return g ->
        Provider.getattr_text g = Return t ->
        strip (or_else t []) = [] ->
        Provider.candidates g = None \/ Provider.candidates g = Some [] ->
        Chat._gen api cfg system_instructions prompt = Return []).
Proof.
  unfold Chat._gen.
  destruct (Provider.generate_content api _ _ _) as [g|e]; simpl.
  - split; [|split; [|split; [discriminate|split; [|split]]]].
    + intros r. destruct (Provider.getattr_text g) as [t|e]; simpl;
        [|discriminate].
      destruct (truthy (strip (or_else t []))) eqn:E.
      * intros [= <-]. apply strip_trimmed.
      * destruct (Provider.candidates g) as [[|cand cands]|];
          intros [= <-]; first [apply strip_trimmed | now split].
    + intros e' H. right. exists g. split; [done|]. revert H.
      unfold Provider.getattr_text.
      destruct (Provider.text g) as [t|e] eqn:Et; simpl.
      * destruct (truthy _); [discriminate|].
        now destruct (Provider.candidates g) as [[|cand cands]|].
      * destruct e; simpl; try (intros [= <-]; now split).
        destruct (Provider.candidates g) as [[|cand cands]|]; discriminate.
    + intros g' e' [= <-] Ht Hne. unfold Provider.getattr_text. rewrite Ht.
      now destruct e'.
    + intros g' t [= <-] Ht Hvis. unfold Provider.getattr_text. rewrite Ht.
      assert (Hor : or_else (Some t) [] = t)
        by (destruct t; [inversion Hvis|done]).
      pose proof (strip_nonempty t Hvis) as Hne.
      apply truthy_true in Hne.
      cbn [mbind result_bind]. rewrite Hor. cbn zeta. now rewrite Hne.
    + intros g' t [= <-] Ht Hempty Hcands. rewrite Ht. simpl.
      rewrite Hempty. simpl. now destruct Hcands as [-> | ->].
  - split; [discriminate|]. split; [intros e' [= <-]; now left|].
    split; [now intros e' [= <-]|].
    split; [discriminate|]. split; discriminate.
Qed.

(** X9. The sends of [chat_command]: one part goes out alone; several parts
    go out in their order, the first by the follow-up and the others to the
    channel, and the notice of the split follows them.  When Discord is up
    and every part has between 1 and 2000 characters, all of them are
    delivered and the store is the one [_get_ai_response] left. *)
Theorem chat_command_delivers_all (d : Cog.discord) (cfg : Config.t)
    (api : Provider.sdk) (self : Chat.ChatCog) (user_id : Z) (message : str) :
  discord_up d ->
  Forall (fun part => 1 <= len part <= 2000)
         (Chat._format_response
            (Chat._get_ai_response cfg api self user_id message).2
            (Chat._get_ai_response cfg api self user_id message).1) ->
  Cog.chat_command d cfg api self user_id message
  = (Cog.sends
       (Chat._format_response
          (Chat._get_ai_response cfg api self user_id message).2
          (Chat._get_ai_response cfg api self user_id message).1),
     (Chat._get_ai_response cfg api self user_id message).2)
  /\ (forall part, Cog.sends [part] = [Cog.Followup part])
  /\ (forall part part' parts,
        Cog.sends (part :: part' :: parts)
        = Cog.Followup part :: map Cog.ChannelSend (part' :: parts)
          ++ [Cog.Followup Cog.split_notice]).
Proof.
  intros [Hdefer Haccepts] Hparts.
  split; [|split; [done|apply sends_several]].
  unfold Cog.chat_command. rewrite Hdefer.
  destruct (Chat._get_ai_response cfg api self user_id message)
    as [r self'].
  simpl in Hparts. rewrite deliver_all; [done|].
  eapply Forall_impl; [apply sends_within_limit, Hparts|].
  intros m Hm. now apply Haccepts.
Qed.

Lemma chat_command_delivers_all_witness :
  discord_up strict_discord
  /\ Cog.chat_command strict_discord openai_config
       (answering (Some (lit " Hello! "))) Chat.__init__ 7 (lit "hi")
     = ([Cog.Followup (lit "Hello!")],
        Chat._update_conversation_history Chat.__init__ 7 (lit "hi")
                                          (lit "Hello!")).
Proof.
  assert (Hup : discord_up strict_discord) by (split; [done|now intros m]).
  split; [exact Hup|].
  refine (proj1 (chat_command_delivers_all strict_discord openai_config
                   (answering (Some (lit " Hello! "))) Chat.__init__ 7
                   (lit "hi") Hup _)).
  repeat constructor; now vm_compute.
Defined.

(** X10. When the call of the configured provider raises and Discord is up,
    the user receives one message, the text of the matching handler, and the
    store is left as it was. *)
Theorem chat_command_provider_failure (d : Cog.discord) (cfg : Config.t)
    (api : Provider.sdk) (e : exn) (self : Chat.ChatCog) (user_id : Z)
    (message : str) :
  call_fails cfg api e ->
  discord_up d ->
  Chat.max_message_length self = 2000 ->
  Cog.chat_command d cfg api self user_id message
  = ([Cog.Followup (Chat.except e)], self).
Proof.
  intros Hfail [Hdefer Haccepts] Hmax. unfold Cog.chat_command.
  rewrite Hdefer, (cog_call_fails _ _ _ _ _ _ Hfail).
  pose proof (except_length e) as Hlen.
  unfold Chat._format_response. rewrite Hmax.
  destruct (Z.leb_spec (len (Chat.except e)) 2000); [|lia].
  simpl. rewrite Haccepts; [done|]. simpl.
  destruct (Z.leb_spec 1 (len (Chat.except e))); [|lia].
  destruct (Z.leb_spec (len (Chat.except e)) 2000); [done|lia].
Qed.

Lemma chat_command_provider_failure_witness :
  call_fails gemini_config (failing APITimeoutError) APITimeoutError
  /\ discord_up strict_discord
  /\ Chat.max_message_length Chat.__init__ = 2000
  /\ Cog.chat_command strict_discord gemini_config (failing APITimeoutError)
                      Chat.__init__ 7 (lit "hi")
     = ([Cog.Followup
           (lit "The AI service is taking longer than expected. Please try again.")],
        Chat.__init__).
Proof.
  assert (Hfail : call_fails gemini_config (failing APITimeoutError)
                             APITimeoutError) by (now intros ? ? ?).
  assert (Hup : discord_up strict_discord) by (split; [done|now intros m]).
  split; [exact Hfail|]. split; [exact Hup|]. split; [reflexivity|].
  now apply (chat_command_provider_failure _ _ _ _ _ _ _ Hfail Hup).
Defined.

(** X11. Whatever Discord does, [chat_command] delivers a beginning of the
    planned sends, in their order, followed by the error notice if a send
    raised and the notice itself went through.  If [defer] raises, the
    provider is not called and the store is untouched; otherwise the store is
    the one [_get_ai_response] left, delivered or not. *)
Theorem chat_command_partial_delivery (d : Cog.discord) (cfg : Config.t)
    (api : Provider.sdk) (self : Chat.ChatCog) (user_id : Z) (message : str) :
  (Cog.defer_ok d = false /\
   Cog.chat_command d cfg api self user_id message
   = (Cog.report_error d, self))
  \/ (Cog.defer_ok d = true /\
      exists n,
        let plan :=
          Cog.sends
            (Chat._format_response
               (Chat._get_ai_response cfg api self user_id message).2
               (Chat._get_ai_response cfg api self user_id message).1) in
        (n <= length plan)%nat
        /\ Cog.chat_command d cfg api self user_id message
           = (take n plan
              ++ (if bool_decide (n = length plan) then []
                  else Cog.report_error d),
              (Chat._get_ai_response cfg api self user_id message).2)).
Proof.
  unfold Cog.chat_command. destruct (Cog.defer_ok d); [right|now left].
  split; [done|].
  destruct (Chat._get_ai_response cfg api self user_id message)
    as [r self']. simpl.
  destruct (deliver_take d (Cog.sends (Chat._format_response self' r)))
    as (n & Hn & ->).
  exists n. split; [exact Hn|].
  destruct (bool_decide (n = length _)); [|done].
  now rewrite app_nil_r.
Qed.

(** * More on the web server *)

Section WebMore.
Import Web Provider.

Lemma unavailable_trimmed : trimmed unavailable.
Proof.
  split; intros c H; vm_compute in H; injection H as <-; reflexivity.
Qed.

Lemma try_generate_trimmed cfg api messages answer :
  try_generate_ai_response cfg api messages = Return answer ->
  trimmed answer.
Proof.
  unfold try_generate_ai_response.
  destruct (dispatch (Config.ai_provider cfg)); [| |discriminate].
  - destruct (chat_completions_create api _ messages) as [resp|e];
      simpl; [|discriminate].
    destruct (choices resp) as [|c cs]; [discriminate|].
    destruct (truthy (strip (or_else c []))); [|discriminate].
    intros [= <-]. apply strip_trimmed.
  - destruct (fold_left flatten_step messages ([], [])) as [si parts].
    destruct (generate_content api _ _ _) as [r|e]; simpl; [|discriminate].
    destruct (getattr_text r) as [t|e]; simpl; [|discriminate].
    destruct (truthy (strip (or_else t []))).
    + intros [= <-]. apply strip_trimmed.
    + destruct (candidates r) as [[|cand cands]|]; try discriminate.
      match goal with
      | |- (if truthy ?t then _ else _) = _ -> _ =>
          destruct (truthy t); [|discriminate]
      end.
      intros [= <-]. apply strip_trimmed.
Qed.

Lemma generate_trimmed cfg api conversation_history user_id message :
  trimmed (generate_ai_response cfg api conversation_history user_id message).
Proof.
  unfold generate_ai_response.
  destruct (try_generate_ai_response _ _ _) as [answer|e] eqn:E.
  - now apply try_generate_trimmed in E.
  - apply unavailable_trimmed.
Qed.

(** A request is refused with the store as it was, or answered with the
    two items of the exchange stored behind the others. *)
Lemma chat_cases cfg api conversation_history req :
  (chat cfg api conversation_history req).2 = conversation_history
  \/ exists message r,
       message <> [] /\ trimmed message /\ r <> [] /\ trimmed r
       /\ (chat cfg api conversation_history req).2
          = <[get_or (session_user_id req) (lit "anonymous") :=
                get conversation_history
                    (get_or (session_user_id req) (lit "anonymous"))
                ++ [Item user message (now req 0%nat);
                    Item ai r (now req 1%nat)]]>
              conversation_history.
Proof.
  unfold chat. destruct (json req) as [data|]; [|now left].
  destruct (get_or data (JsonString [])) as [text|]; [|now left].
  destruct (truthy (strip text)) eqn:E; simpl; [|now left].
  right. eexists (strip text), _.
  split; [now apply truthy_true|]. split; [apply strip_trimmed|].
  split; [apply generate_nonempty|]. split; [apply generate_trimmed|].
  unfold get at 1. rewrite lookup_insert_eq. simpl.
  rewrite insert_insert_eq, <- app_assoc. reflexivity.
Qed.

Lemma exchanges_app l message t r t' :
  WebApi.exchanges l ->
  WebApi.exchanges (l ++ [Item user message t; Item ai r t']).
Proof.
  induction 1; simpl; [repeat constructor|]. now constructor.
Qed.

Lemma run_exchanges cfg ops user_id :
  WebApi.exchanges (get (run cfg ops) user_id)
  /\ Forall (fun i => item_content i <> [] /\ trimmed (item_content i))
            (get (run cfg ops) user_id).
Proof.
  induction ops as [|o ops [IH1 IH2]] using rev_ind;
    [split; constructor|].
  rewrite run_snoc_web. destruct o as [api req|session]; simpl.
  - destruct (chat_cases cfg api (run cfg ops) req)
      as [->|(message & r & Hm & Hmt & Hr & Hrt & ->)]; [now split|].
    rewrite get_insert. case_decide as Hk; [|now split].
    rewrite Hk. split; [now apply exchanges_app|].
    apply Forall_app. split; [exact IH2|].
    apply Forall_cons. split; [done|].
    apply Forall_cons. split; [done|constructor].
  - unfold clear_history, get.
    destruct (decide (get_or session (lit "anonymous") = user_id)) as [->|Hne].
    + rewrite lookup_delete_eq. split; constructor.
    + rewrite lookup_delete_ne by done. now split.
Qed.

Lemma slice_from_20_snoc {A} (l : list A) (x : A) :
  exists kept, slice_from (-20) (l ++ [x]) = kept ++ [x].
Proof.
  rewrite (slice_from_neg 20) by lia. change (Z.to_nat 20) with 20%nat.
  exists (drop (length (l ++ [x]) - 20) l).
  rewrite drop_app.
  replace (length (l ++ [x]) - 20 - length l)%nat with 0%nat; [done|].
  rewrite length_app. simpl. lia.
Qed.

(** The total of [/api/stats] after an assignment to one key. *)
Lemma total_insert (conversation_history : gmap str (list item)) k v :
  WebApi.total_messages (WebApi.stats (<[k := v]> conversation_history))
  = WebApi.total_messages (WebApi.stats conversation_history)
    - len (get conversation_history k) + len v.
Proof.
  unfold WebApi.stats, get. simpl.
  assert (Hcomm : forall (m : gmap str (list item)) (j1 j2 : str)
                    (z1 z2 : list item) (y : Z),
             j1 <> j2 -> m !! j1 = Some z1 -> m !! j2 = Some z2 ->
             y + len z2 + len z1 = y + len z1 + len z2)
    by (intros; lia).
  destruct (conversation_history !! k) as [old|] eqn:E; simpl.
  - rewrite <- (insert_delete_eq conversation_history).
    rewrite (map_fold_insert_L _ _ _ _ _ (Hcomm _))
      by apply lookup_delete_eq.
    rewrite (map_fold_delete_L _ _ k old conversation_history (Hcomm _) E).
    lia.
  - rewrite (map_fold_insert_L _ _ _ _ _ (Hcomm _) E). unfold len. simpl. lia.
Qed.

Lemma total_delete (conversation_history : gmap str (list item)) k :
  WebApi.total_messages (WebApi.stats (delete k conversation_history))
  = WebApi.total_messages (WebApi.stats conversation_history)
    - len (get conversation_history k).
Proof.
  unfold WebApi.stats, get. simpl.
  destruct (conversation_history !! k) as [old|] eqn:E; simpl.
  - rewrite (map_fold_delete_L _ _ k old conversation_history) by
      (intros; lia || exact E). lia.
  - rewrite delete_id by exact E. unfold len. simpl. lia.
Qed.

End WebMore.


(** X13. The store of the web server, whatever requests were served and
    however their steps overlapped: every stored item is the user's or the
    answer's, and its text is non-empty and has no white space around it.
    Histories made of whole exchanges are not guaranteed: when a second
    request of the same user stores its message while the first waits for the
    provider, the two messages are followed by the two answers. *)
Theorem web_store_items_trimmed :
  (forall actions user_id,
     Forall (fun i => (Web.item_role i = user \/ Web.item_role i = ai)
                      /\ Web.item_content i <> []
                      /\ trimmed (Web.item_content i))
            (Web.get (Web.interleaving actions) user_id))
  /\ (let api := answering (Some (lit "ok")) in
      let t := lit "2024-01-01T00:00:00" in
      let u := lit "anonymous" in
      let first := [Web.Create u; Web.StoreMessage u (lit "one") t] in
      let second := first ++ [Web.StoreMessage u (lit "two") t] in
      let overlapped :=
        second
        ++ [Web.StoreAnswer openai_config api (Web.interleaving first) u
                            (lit "one") t;
            Web.StoreAnswer openai_config api (Web.interleaving second) u
                            (lit "two") t] in
      Web.get (Web.interleaving overlapped) u
      = [Web.Item user (lit "one") t; Web.Item user (lit "two") t;
         Web.Item ai (lit "ok") t; Web.Item ai (lit "ok") t]
      /\ ~ WebApi.exchanges (Web.get (Web.interleaving overlapped) u)).
Proof.
  split.
  - intros actions user_id. apply interleaving_forall.
    + intros text t E. split; [now left|].
      split; [now apply truthy_true|apply strip_trimmed].
    + intros cfg api seen u message t. split; [now right|].
      split; [apply generate_nonempty|apply generate_trimmed].
  - cbv zeta.
    assert (E : Web.get
                  (Web.interleaving
                     (([Web.Create (lit "anonymous");
                        Web.StoreMessage (lit "anonymous") (lit "one")
                                         (lit "2024-01-01T00:00:00")]
                       ++ [Web.StoreMessage (lit "anonymous") (lit "two")
                                            (lit "2024-01-01T00:00:00")])
                      ++ [Web.StoreAnswer openai_config
                            (answering (Some (lit "ok")))
                            (Web.interleaving
                               [Web.Create (lit "anonymous");
                                Web.StoreMessage (lit "anonymous") (lit "one")
                                  (lit "2024-01-01T00:00:00")])
                            (lit "anonymous") (lit "one")
                            (lit "2024-01-01T00:00:00");
                          Web.StoreAnswer openai_config
                            (answering (Some (lit "ok")))
                            (Web.interleaving
                               ([Web.Create (lit "anonymous");
                                 Web.StoreMessage (lit "anonymous")
                                   (lit "one") (lit "2024-01-01T00:00:00")]
                                ++ [Web.StoreMessage (lit "anonymous")
                                      (lit "two")
                                      (lit "2024-01-01T00:00:00")]))
                            (lit "anonymous") (lit "two")
                            (lit "2024-01-01T00:00:00")]))
                  (lit "anonymous")
                = [Web.Item user (lit "one") (lit "2024-01-01T00:00:00");
                   Web.Item user (lit "two") (lit "2024-01-01T00:00:00");
                   Web.Item ai (lit "ok") (lit "2024-01-01T00:00:00");
                   Web.Item ai (lit "ok") (lit "2024-01-01T00:00:00")])
      by (vm_compute; reflexivity).
    split; [exact E|]. rewrite E. intros H. inversion H.
Qed.

(** X14. A request to [/api/chat] changes the history of the session's
    user only. *)
Theorem web_chat_other_users (cfg : Config.t) (api : Provider.sdk)
    (conversation_history : gmap str (list Web.item)) (req : Web.request)
    (other : str) :
  other <> get_or (Web.session_user_id req) (lit "anonymous") ->
  Web.get (Web.chat cfg api conversation_history req).2 other
  = Web.get conversation_history other.
Proof.
  intros Hne.
  destruct (chat_cases cfg api conversation_history req)
    as [->|(message & r & _ & _ & _ & _ & ->)]; [done|].
  rewrite get_insert. case_decide; [congruence|done].
Qed.

Lemma web_chat_other_users_witness :
  lit "alice" <> get_or (Web.session_user_id (post (lit "hi")))
                        (lit "anonymous")
  /\ Web.get (Web.chat openai_config (answering (Some (lit "ok"))) ∅
                       (post (lit "hi"))).2 (lit "alice")
     = Web.get ∅ (lit "alice").
Proof.
  assert (H : lit "alice" <> get_or (Web.session_user_id (post (lit "hi")))
                                    (lit "anonymous")) by discriminate.
  split; [exact H|]. now apply web_chat_other_users.
Defined.

(** X15. In [/api/chat] the message is stored before the prompt is built
    from the store, so the prompt handed to the provider ends with the message
    twice: once as the newest stored item, once as the current message. *)
Theorem web_chat_prompt_repeats_message (cfg : Config.t) (api : Provider.sdk)
    (conversation_history : gmap str (list Web.item)) (req : Web.request)
    (message : str) :
  Web.json req = Some (Some (Web.JsonString message)) ->
  strip message <> [] ->
  let user_id := get_or (Web.session_user_id req) (lit "anonymous") in
  let stored :=
    <[user_id := Web.get conversation_history user_id
                 ++ [Web.Item user (strip message) (Web.now req 0%nat)]]>
      conversation_history in
  let prompt := Web._build_messages stored user_id (strip message) in
  (Web.chat cfg api conversation_history req).1
  = Web.Ok200
      (match Web.try_generate_ai_response cfg api prompt with
       | Return answer => answer
       | Raise _ => Web.unavailable
       end)
      (Web.now req 2%nat)
  /\ exists earlier,
       prompt = earlier ++ [Message user (strip message);
                            Message user (strip message)].
Proof.
  intros Hjson Hne. cbv zeta. split.
  - now rewrite (chat_answered _ _ _ _ _ Hjson Hne).
  - rewrite build_messages_eq, get_insert, decide_True by done.
    destruct (slice_from_20_snoc
                (Web.get conversation_history
                         (get_or (Web.session_user_id req) (lit "anonymous")))
                (Web.Item user (strip message) (Web.now req 0%nat)))
      as [kept ->].
    rewrite filter_app, map_app, filter_cons. simpl.
    apply truthy_true in Hne. rewrite decide_True by exact Hne.
    eexists (_ :: _). simpl. rewrite <- app_assoc. reflexivity.
Qed.

Lemma web_chat_prompt_repeats_message_witness :
  Web.json (post (lit "hi")) = Some (Some (Web.JsonString (lit "hi")))
  /\ strip (lit "hi") <> []
  /\ exists earlier,
       Web._build_messages
         {[ lit "anonymous"
            := [Web.Item user (lit "hi") (lit "2024-01-01T00:00:00")] ]}
         (lit "anonymous") (lit "hi")
       = earlier ++ [Message user (lit "hi"); Message user (lit "hi")].
Proof.
  assert (H1 : Web.json (post (lit "hi"))
               = Some (Some (Web.JsonString (lit "hi"))))
    by reflexivity.
  assert (H2 : strip (lit "hi") <> []) by discriminate.
  split; [exact H1|]. split; [exact H2|].
  exact (proj2 (web_chat_prompt_repeats_message openai_config
                  (answering None) ∅ (post (lit "hi")) (lit "hi") H1 H2)).
Defined.



(** X17. [/api/clear-history] leaves the session's user with an empty
    history, whether there was one or not, touches nobody else, and done twice
    is the same as done once. *)
Theorem web_clear_history
    (conversation_history : gmap str (list Web.item)) (session : option str) :
  WebApi.history (Web.clear_history conversation_history session) session = []
  /\ (forall other,
        other <> get_or session (lit "anonymous") ->
        Web.get (Web.clear_history conversation_history session) other
        = Web.get conversation_history other)
  /\ Web.clear_history (Web.clear_history conversation_history session) session
     = Web.clear_history conversation_history session.
Proof.
  unfold WebApi.history, Web.clear_history, Web.get.
  split; [now rewrite lookup_delete_eq|].
  split; [intros other Hne; now rewrite lookup_delete_ne|].
  apply delete_delete_eq.
Qed.

(** X18. [/api/stats]: an empty store counts nothing; an answered request
    adds two to the total of messages, and one to the number of users exactly
    when the user had no history; clearing a history takes its length off the
    total. *)
Theorem web_stats_count :
  WebApi.stats ∅ = {| WebApi.total_messages := 0; WebApi.unique_users := 0 |}
  /\ (forall cfg api conversation_history req r t,
        (Web.chat cfg api conversation_history req).1 = Web.Ok200 r t ->
        let after := (Web.chat cfg api conversation_history req).2 in
        WebApi.total_messages (WebApi.stats after)
        = WebApi.total_messages (WebApi.stats conversation_history) + 2
        /\ WebApi.unique_users (WebApi.stats after)
           = WebApi.unique_users (WebApi.stats conversation_history)
             + (match conversation_history
                        !! get_or (Web.session_user_id req) (lit "anonymous")
                with
                | Some _ => 0
                | None => 1
                end))
  /\ (forall conversation_history session,
        WebApi.total_messages
          (WebApi.stats (Web.clear_history conversation_history session))
        = WebApi.total_messages (WebApi.stats conversation_history)
          - len (WebApi.history conversation_history session)).
Proof.
  split; [reflexivity|]. split.
  - intros cfg api ch req r t H. cbv zeta.
    destruct (chat_ok_history _ _ _ _ _ _ H) as (message & _ & ->).
    split.
    + rewrite total_insert, len_app. unfold len at 3. simpl. lia.
    + unfold WebApi.stats. simpl. rewrite map_size_insert.
      destruct (ch !! _); simpl; lia.
  - intros ch session. apply total_delete.
Qed.

(** X19. With a configuration that was constructed, [/api/status] reports
    one of the two providers and a model of that provider's list. *)
Theorem web_status_reports_valid_model
    (env : Config.environ) (cfg : Config.t) (now : str) :
  Config.__init__ env = Return cfg ->
  (WebApi.provider (WebApi.status cfg now) = lit "openai"
   /\ WebApi.model (WebApi.status cfg now) ∈ Config.valid_openai_models)
  \/ (WebApi.provider (WebApi.status cfg now) = lit "gemini"
      /\ WebApi.model (WebApi.status cfg now) ∈ Config.valid_gemini_models).
Proof.
  intros Hinit. unfold Config.__init__ in Hinit.
  apply validate_config_return in Hinit as [Hp Hm].
  unfold WebApi.status. simpl. rewrite Hp in Hm |- *.
  case_decide.
  - right. split; [done|]. rewrite dispatch_gemini in Hm.
    destruct Hm as [-> _]. rewrite decide_False by discriminate.
    case_decide; [done|]. unfold Config.valid_gemini_models. set_solver.
  - left. split; [done|]. rewrite dispatch_openai in Hm.
    destruct Hm as [-> _]. rewrite decide_True by done.
    case_decide; [done|]. unfold Config.valid_openai_models. set_solver.
Qed.

Lemma web_status_reports_valid_model_witness :
  Config.__init__ sample_environ = Return openai_config
  /\ WebApi.provider (WebApi.status openai_config (lit "now")) = lit "openai"
  /\ WebApi.model (WebApi.status openai_config (lit "now"))
     ∈ Config.valid_openai_models.
Proof.
  assert (H : Config.__init__ sample_environ = Return openai_config)
    by (vm_compute; reflexivity).
  split; [exact H|].
  destruct (web_status_reports_valid_model sample_environ openai_config
              (lit "now") H) as [Ho|[Hg _]]; [exact Ho|].
  discriminate Hg.
Defined.

(** * Start-up *)

Section StartUp.
Import Config Provider.

(** The normalisation of the provider keeps everything else, and leaves
    ["gemini"] or ["openai"]. *)
Lemma normalized_provider self :
  let self' := if decide (ai_provider self ∈ [lit "openai"; lit "gemini"])
               then self else with_provider self (lit "openai") in
  discord_token self' = discord_token self
  /\ openai_api_key self' = openai_api_key self
  /\ gemini_api_key self' = gemini_api_key self
  /\ ((ai_provider self = lit "gemini" /\ ai_provider self' = lit "gemini")
      \/ (ai_provider self <> lit "gemini"
          /\ ai_provider self' = lit "openai")).
Proof.
  cbv zeta. case_decide as Hin.
  - repeat (split; [done|]).
    apply list_elem_of_In in Hin. destruct Hin as [Ho|[Hg|[]]].
    + right. split; [|done]. rewrite <- Ho. discriminate.
    + now left.
  - repeat (split; [done|]). right. split; [|done].
    intros Hg. apply Hin. rewrite Hg. set_solver.
Qed.

(** What [_validate_config] has checked when it returns, and what it says
    when it raises. *)
Lemma validate_config_outcome self :
  match _validate_config self with
  | Return cfg =>
      discord_token cfg = discord_token self
      /\ unset (discord_token self) = false
      /\ ((ai_provider self <> lit "gemini"
           /\ ai_provider cfg = lit "openai"
           /\ unset (openai_api_key self) = false
           /\ openai_api_key cfg = openai_api_key self)
          \/ (ai_provider self = lit "gemini"
              /\ ai_provider cfg = lit "gemini"
              /\ unset (gemini_api_key self) = false
              /\ gemini_api_key cfg = gemini_api_key self))
  | Raise e =>
      (unset (discord_token self) = true
       /\ e = ValueError (lit "DISCORD_TOKEN is required"))
      \/ (unset (discord_token self) = false
          /\ ai_provider self <> lit "gemini"
          /\ unset (openai_api_key self) = true
          /\ e = ValueError
                   (lit "OPENAI_API_KEY is required for AI_PROVIDER=openai"))
      \/ (unset (discord_token self) = false
          /\ ai_provider self = lit "gemini"
          /\ unset (gemini_api_key self) = true
          /\ e = ValueError
                   (lit "GEMINI_API_KEY is required for AI_PROVIDER=gemini"))
  end.
Proof.
  unfold _validate_config.
  destruct (unset (discord_token self)) eqn:Etoken; [now left|].
  pose proof (normalized_provider self) as Hnorm. cbv zeta in Hnorm.
  set (self' := if decide (ai_provider self ∈ [lit "openai"; lit "gemini"])
                then self else with_provider self (lit "openai")) in *.
  destruct Hnorm as (Htoken & Hopenai & Hgemini & Hprov).
  clearbody self'.
  destruct Hprov as [[Hg Hg']|[Hng Ho']].
  - rewrite (decide_False (P := ai_provider self' = lit "openai"))
      by (rewrite Hg'; discriminate).
    rewrite (decide_True (P := ai_provider self' = lit "gemini")) by done.
    rewrite Hgemini.
    destruct (unset (gemini_api_key self)) eqn:Ekey; [now right; right|].
    split; [now case_decide|]. split; [done|]. right.
    split; [done|]. now case_decide.
  - rewrite (decide_True (P := ai_provider self' = lit "openai")) by done.
    rewrite Hopenai.
    destruct (unset (openai_api_key self)) eqn:Ekey; [now right; left|].
    split; [now case_decide|]. split; [done|]. left.
    split; [done|]. now case_decide.
Qed.

Lemma init_outcome env :
  match Config.__init__ env with
  | Return cfg =>
      Startup.is_valid cfg = true
      /\ discord_token cfg = DISCORD_TOKEN env
      /\ unset (DISCORD_TOKEN env) = false
      /\ unset (if decide
                     (lower (strip (or_else
                                      (Some (get_or (AI_PROVIDER env)
                                                    (lit "openai")))
                                      (lit "openai")))
                      = lit "gemini")
                then GEMINI_API_KEY env else OPENAI_API_KEY env) = false
  | Raise e =>
      (unset (DISCORD_TOKEN env) = true
       /\ e = ValueError (lit "DISCORD_TOKEN is required"))
      \/ (unset (DISCORD_TOKEN env) = false
          /\ lower (strip (or_else (Some (get_or (AI_PROVIDER env)
                                                 (lit "openai")))
                                   (lit "openai")))
             <> lit "gemini"
          /\ unset (OPENAI_API_KEY env) = true
          /\ e = ValueError
                   (lit "OPENAI_API_KEY is required for AI_PROVIDER=openai"))
      \/ (unset (DISCORD_TOKEN env) = false
          /\ lower (strip (or_else (Some (get_or (AI_PROVIDER env)
                                                 (lit "openai")))
                                   (lit "openai")))
             = lit "gemini"
          /\ unset (GEMINI_API_KEY env) = true
          /\ e = ValueError
                   (lit "GEMINI_API_KEY is required for AI_PROVIDER=gemini"))
  end.
Proof.
  unfold Config.__init__.
  match goal with
  | |- match _validate_config ?s with _ => _ end =>
      pose proof (validate_config_outcome s) as H;
      destruct (_validate_config s) as [cfg|e]
  end; cbn [discord_token ai_provider openai_api_key gemini_api_key] in H;
    [|exact H].
  destruct H as (Htoken & Hset & Hkey).
  split; [|split; [done|split; [done|]]].
  - unfold Startup.is_valid. rewrite Htoken, Hset.
    destruct Hkey as [(_ & -> & Hk & ->)|(_ & -> & Hk & ->)].
    + rewrite decide_True by done. now rewrite Hk.
    + rewrite decide_False by discriminate.
      rewrite decide_True by done. now rewrite Hk.
  - destruct Hkey as [(Hng & _ & Hk & _)|(Hg & _ & Hk & _)].
    + now rewrite decide_False.
    + now rewrite decide_True.
Qed.

End StartUp.

(** X20. A configuration that was constructed is valid in the sense of
    [is_valid]: the check [main] makes before starting the bot cannot fail,
    and the bot is started with the token of the environment. *)
Theorem constructed_config_is_valid (env : Config.environ) (cfg : Config.t) :
  Config.__init__ env = Return cfg ->
  Startup.is_valid cfg = true
  /\ Startup.main cfg = Startup.BotStart (Config.DISCORD_TOKEN env).
Proof.
  intros Hinit. pose proof (init_outcome env) as H. rewrite Hinit in H.
  destruct H as (Hvalid & Htoken & _).
  split; [exact Hvalid|].
  unfold Startup.main. now rewrite Hvalid, Htoken.
Qed.

Lemma constructed_config_is_valid_witness :
  Config.__init__ sample_environ = Return openai_config
  /\ Startup.is_valid openai_config = true.
Proof.
  assert (H : Config.__init__ sample_environ = Return openai_config)
    by (vm_compute; reflexivity).
  split; [exact H|].
  exact (proj1 (constructed_config_is_valid _ _ H)).
Defined.

(** X21. How the program starts: if the token is unset, or the key of the
    provider that was resolved is unset, the import of the configuration
    raises a [ValueError] that names the missing variable, the token first;
    otherwise the bot is started with the token.  The exit of [main] for an
    invalid configuration is never taken. *)
Theorem program_start (env : Config.environ) :
  let given :=
    lower (strip (or_else (Some (get_or (Config.AI_PROVIDER env)
                                        (lit "openai")))
                          (lit "openai"))) in
  match Startup.program env with
  | Startup.ImportError e =>
      (Config.unset (Config.DISCORD_TOKEN env) = true
       /\ e = ValueError (lit "DISCORD_TOKEN is required"))
      \/ (Config.unset (Config.DISCORD_TOKEN env) = false
          /\ given <> lit "gemini"
          /\ Config.unset (Config.OPENAI_API_KEY env) = true
          /\ e = ValueError
                   (lit "OPENAI_API_KEY is required for AI_PROVIDER=openai"))
      \/ (Config.unset (Config.DISCORD_TOKEN env) = false
          /\ given = lit "gemini"
          /\ Config.unset (Config.GEMINI_API_KEY env) = true
          /\ e = ValueError
                   (lit "GEMINI_API_KEY is required for AI_PROVIDER=gemini"))
  | Startup.Exit1 => False
  | Startup.BotStart token =>
      token = Config.DISCORD_TOKEN env
      /\ Config.unset token = false
      /\ Config.unset (if decide (given = lit "gemini")
                       then Config.GEMINI_API_KEY env
                       else Config.OPENAI_API_KEY env) = false
  end.
Proof.
  cbv zeta. unfold Startup.program.
  pose proof (init_outcome env) as H.
  destruct (Config.__init__ env) as [cfg|e]; [|exact H].
  destruct H as (Hvalid & Htoken & Hset & Hkey).
  unfold Startup.main. rewrite Hvalid, Htoken. simpl. now split.
Qed.

(** X22. [_validate_config] is idempotent: validating again a
    configuration it returned returns it unchanged. *)
Theorem validate_config_idempotent (self cfg : Config.t) :
  Config._validate_config self = Return cfg ->
  Config._validate_config cfg = Return cfg.
Proof.
  intros H. pose proof (validate_config_return self cfg H) as [_ Hmodel].
  pose proof (validate_config_outcome self) as Hout. rewrite H in Hout.
  destruct Hout as (Htoken & Hset & Hkey).
  unfold Config._validate_config. rewrite Htoken, Hset.
  destruct Hkey as [(_ & Ho & Hk & Hk')|(_ & Hg & Hk & Hk')].
  - rewrite Ho in Hmodel |- *. rewrite dispatch_openai in Hmodel.
    rewrite (decide_True (P := _ ∈ _)) by left.
    rewrite Ho, decide_True by done. rewrite Hk', Hk.
    rewrite decide_True; [done|]. destruct Hmodel as [Hm _]. rewrite Hm.
    case_decide; [done|]. unfold Config.valid_openai_models. set_solver.
  - rewrite Hg in Hmodel |- *. rewrite dispatch_gemini in Hmodel.
    rewrite (decide_True (P := _ ∈ _)) by (right; left).
    rewrite Hg, decide_False by discriminate.
    rewrite decide_True by done. rewrite Hk', Hk.
    rewrite decide_True; [done|]. destruct Hmodel as [Hm _]. rewrite Hm.
    case_decide; [done|]. unfold Config.valid_gemini_models. set_solver.
Qed.

Lemma validate_config_idempotent_witness :
  let given :=
    {| Config.discord_token := Some (lit "token");
       Config.ai_provider := lit "claude";
       Config.openai_api_key := Some (lit "key");
       Config.openai_model := lit "gpt-5";
       Config.gemini_api_key := None;
       Config.gemini_model := lit "gemini-1.5-flash" |} in
  Config._validate_config given = Return openai_config
  /\ Config._validate_config openai_config = Return openai_config.
Proof.
  intros given.
  assert (H : Config._validate_config given = Return openai_config)
    by (vm_compute; reflexivity).
  split; [exact H|]. exact (validate_config_idempotent _ _ H).
Defined.

(** * The answers recorded with Gemini, and the Gemini prompt of the web
      server *)

Section GeminiMore.
Import Provider.

Lemma gemini_command_cases d cfg api self user_id message :
  dispatch (Config.ai_provider cfg) = Gemini ->
  (Cog.chat_command d cfg api self user_id message).2 = self
  \/ exists r,
       r <> []
       /\ (Cog.chat_command d cfg api self user_id message).2
          = Chat._update_conversation_history self user_id message r.
Proof.
  intros Hg. rewrite chat_command_store.
  destruct (Cog.defer_ok d); [|now left].
  unfold Chat._get_ai_response.
  destruct (Chat.try_get_ai_response cfg api self user_id message)
    as [[r self']|e] eqn:E; [|now left].
  right. exists r. split; [exact (cog_gemini_nonempty _ _ _ _ _ _ _ Hg E)|].
  now apply try_get_ai_response_return in E as [_ ->].
Qed.

Lemma update_history_nonempty self user_id message r other :
  r <> [] ->
  Forall (fun m => role_of m = assistant -> content m <> [])
         (Chat.history self other) ->
  Forall (fun m => role_of m = assistant -> content m <> [])
         (Chat.history
            (Chat._update_conversation_history self user_id message r)
            other).
Proof.
  intros Hr Hold. destruct (decide (other = user_id)) as [->|Hne].
  - rewrite update_history. cbv zeta.
    assert (Hnew : Forall
                     (fun m => role_of m = assistant -> content m <> [])
                     (Chat.history self user_id
                      ++ [Message user message; Message assistant r])).
    { apply Forall_app. split; [exact Hold|].
      apply Forall_cons. split; [simpl; discriminate|].
      apply Forall_cons. split; [now intros _|constructor]. }
    destruct (len _ >? _); [|exact Hnew].
    unfold slice_from. now apply Forall_drop.
  - now rewrite update_history_other.
Qed.




End GeminiMore.

(** X23. With the Gemini provider the cog never records an empty answer:
    every assistant entry of every history has a text. *)
Theorem cog_gemini_records_no_empty_answer
    (cfg : Config.t) (commands : list Cog.command) (user_id : Z) :
  Provider.dispatch (Config.ai_provider cfg) = Provider.Gemini ->
  Forall (fun m => role_of m = assistant -> content m <> [])
         (Chat.history (Cog.run_commands cfg commands) user_id).
Proof.
  intros Hg.
  induction commands as [|c commands IH] using rev_ind; [constructor|].
  rewrite run_commands_snoc. destruct c as [d api u m|u]; simpl.
  - destruct (gemini_command_cases d cfg api (Cog.run_commands cfg commands)
                                   u m Hg) as [->|(r & Hr & ->)]; [exact IH|].
    now apply update_history_nonempty.
  - destruct (decide (user_id = u)) as [->|Hne].
    + rewrite clear_history_eq. constructor.
    + now rewrite clear_history_other.
Qed.

Lemma cog_gemini_records_no_empty_answer_witness :
  Provider.dispatch (Config.ai_provider gemini_config) = Provider.Gemini
  /\ Forall (fun m => role_of m = assistant -> content m <> [])
            (Chat.history
               (Cog.run_commands gemini_config
                  [Cog.ChatCommand strict_discord
                                   (answering (Some (lit "   "))) 7 (lit "hi");
                   Cog.ChatCommand strict_discord
                                   (answering (Some (lit " ok "))) 7
                                   (lit "hi")])
               7).
Proof.
  assert (H : Provider.dispatch (Config.ai_provider gemini_config)
              = Provider.Gemini) by reflexivity.
  split; [exact H|]. now apply cog_gemini_records_no_empty_answer.
Defined.


